(** * Rewards pools: a shallow embedding of [src/lib/pool.js]

    The module wraps an on-chain staking contract in a [RewardsPool] object,
    with two subclasses that differ in how claimable rewards are reported,
    a factory [fromPool], read-only aggregates ([percentageOfTotal],
    [percentageOwnership], [usdValueOf], [summary]) and one mutating flow,
    [approveAndStake].

    Every external call (a contract query, a token-adapter query, a
    transaction submission) is appended to a trace and answered by a
    [World]; an [async] function is a computation in the monad [M], which
    threads the trace and carries the rejection of its promise. *)

From Stdlib Require Import ZArith List String Ascii Bool Lia DecimalString.
Import ListNotations.

Local Open Scope string_scope.
Local Open Scope Z_scope.

Definition Address := string.

(** ** Errors and settled promises *)

(** What a rejected promise carries. *)
Inductive error :=
| Error (message : string)          (* [new Error(message)] thrown by the module *)
| TypeError (message : string)      (* a call through a property that is not a function *)
| NumericFault (message : string)   (* a fault of a BigNumber operation *)
| Rejected (reason : string).       (* an external call that fails upstream *)

Inductive result (A : Type) :=
| Ok (a : A)
| Err (e : error).

Arguments Ok {A} a.
Arguments Err {A} e.

(** ** The parts of [ethers] the module uses *)

Module Ethers.

(** [ethers.constants.WeiPerEther] and [ethers.constants.MaxUint256]: the
    base-unit scaling constant of 18 decimals and the largest 256-bit
    unsigned integer, which stands for an unlimited approval. *)
Definition WeiPerEther : Z := 10 ^ 18.
Definition MaxUint256 : Z := 2 ^ 256 - 1.

(** What can be handed to a contract or found in its [provider] property:
    [null], a read-only provider, or a signer, which owns an account and
    has a [provider] property of its own. *)
Inductive Connection :=
| Null
| Provider (network : string)
| Signer (account : Address) (provider : Connection).

(** [ethers.Signer.isSigner]. *)
Definition isSigner (c : Connection) : bool :=
  match c with
  | Signer _ _ => true
  | Provider _ => false
  | Null => false
  end.

(** The [provider] property that the constructor of [ethers.Contract] sets
    from its last argument: a signer goes to [this.signer] and it is the
    signer's own provider that becomes [this.provider]; a provider is kept
    as it is. *)
Definition contractProvider (signerOrProvider : Connection) : Connection :=
  match signerOrProvider with
  | Signer _ provider => provider
  | Provider network => Provider network
  | Null => Null
  end.

(** [BigNumber.prototype.div]: a fault on a zero divisor, and the
    quotient truncated toward zero otherwise. *)
Definition div (a b : Z) : result Z :=
  if b =? 0 then Err (NumericFault "division by zero") else Ok (Z.quot a b).

(** [BigNumber.prototype.toString] of a non-negative value. *)
Definition toString (n : Z) : string :=
  NilZero.string_of_uint (N.to_uint (Z.to_N n)).

(** [String.prototype.slice(0, n)] on a string. *)
Fixpoint slice0 (n : nat) (s : string) : string :=
  match n, s with
  | S n', String c s' => String c (slice0 n' s')
  | _, _ => EmptyString
  end.

Fixpoint repeat0 (n : nat) : string :=
  match n with
  | O => EmptyString
  | S n' => String "0" (repeat0 n')
  end.

(** Left-pads a fraction with zeros up to [width] digits. *)
Definition padStart (width : nat) (s : string) : string :=
  repeat0 (width - String.length s) ++ s.

(** The longest prefix that ends in a non-zero digit, or ["0"] when all
    digits are zero (the first group of the library's regular
    expression, which leaves the run of final zeros to a second group). *)
Fixpoint stripTrailingZeros (s : string) : string :=
  match s with
  | EmptyString => EmptyString
  | String c s' =>
      match stripTrailingZeros s' with
      | EmptyString => if Ascii.eqb c "0" then EmptyString else String c EmptyString
      | r => String c r
      end
  end.

Definition fractionDigits (s : string) : string :=
  match stripTrailingZeros s with
  | EmptyString => "0"
  | r => r
  end.

(** Modelled from the spec: the contract-binding layer's "fixed-point
    formatting utility producing a decimal string at a specified
    precision" ([ethers.utils.formatUnits] with a numeric unit), which is
    a library function and not part of the repository's sources.  The
    value is split by [10 ^ decimals] into a whole part and a fraction,
    the fraction is padded to [decimals] digits and loses its trailing
    zeros, and a negative value keeps its sign in front. *)
Definition formatUnits (value : Z) (decimals : nat) : string :=
  let multiplier := 10 ^ Z.of_nat decimals in
  let negative := value <? 0 in
  let v := Z.abs value in
  let fraction := fractionDigits (padStart decimals (toString (v mod multiplier))) in
  let whole := toString (v / multiplier) in
  let body :=
    match decimals with
    | O => whole
    | _ => whole ++ "." ++ fraction
    end in
  if negative then "-" ++ body else body.

End Ethers.

Import Ethers.

(** ** Values, descriptors and token adapters *)

(** The JavaScript values that [summary] tests for truthiness. *)
Inductive jsval :=
| Undefined
| BigNumber (n : Z)
| EmptyObject.

(** Every object is truthy, the empty object [{}] included. *)
Definition truthy (v : jsval) : bool :=
  match v with
  | Undefined => false
  | BigNumber _ => true
  | EmptyObject => true
  end.

Module Asset.
Record t := { name : string; address : Address }.
End Asset.

(** A pool object of the registry ([data/deploys.js]); [name] and [type]
    may be absent. *)
Module Descriptor.
Record t := {
  address : Address;
  name : option string;
  asset : Asset.t;
  rewardAsset : Asset.t;
  type : option string
}.
End Descriptor.

(** A token adapter, the result of [Token.fromAsset]; the flag says whether
    the adapter has an [underlyingBalanceOf] property. *)
Module Token.
Record t := {
  asset : Asset.t;
  provider : Connection;
  underlyingBalanceOf : bool
}.
End Token.

Inductive ABI := AUTO_REWARDS_ABI | REWARDS_ABI.

Definition Receipt := string.

(** ** External calls and the world that answers them *)

Inductive Call :=
| ContractBalanceOf (contract user : Address)
| ContractTotalSupply (contract : Address)
| ContractEarned (contract user : Address)
| TokenBalanceOf (token : Token.t) (user : Address)
| TokenAllowances (token : Token.t) (owner spender : Address)
| TokenUsdValueOf (token : Token.t) (amount : Z)
| TokenCalcShare (token : Token.t) (balance : Z) (passthrough : jsval).

Inductive Tx :=
| TokenApprove (token : Token.t) (spender : Address) (amount : Z)
| ContractStake (contract : Address) (amount : Z).

Inductive event :=
| Read (c : Call)
| Send (x : Tx).

Definition trace := list event.

(** The collaborators outside the module: the token factory of
    [tokens.js], the registry's activity predicate, and the chain, which
    settles every query and every submitted transaction. *)
Record World := {
  fromAsset : Asset.t -> Connection -> Token.t;
  isAddressActive : Address -> bool;
  answer : Call -> result Z;
  settle : Tx -> result Receipt
}.

(** ** The monad of async functions *)

Definition M (A : Type) : Type := trace -> result A * trace.

Definition ret {A} (a : A) : M A := fun t => (Ok a, t).

Definition throw {A} (e : error) : M A := fun t => (Err e, t).

Definition bind {A B} (m : M A) (k : A -> M B) : M B :=
  fun t =>
    match m t with
    | (Ok a, t') => k a t'
    | (Err e, t') => (Err e, t')
    end.

Notation "x <- m ;; k" := (bind m (fun x => k))
  (at level 61, m at next level, right associativity).
Notation "' pat <- m ;; k" := (bind m (fun x => match x with pat => k end))
  (at level 61, pat pattern, m at next level, right associativity).

(** A promise, as the code that awaits it will find it. *)
Definition Promise (A : Type) : Type := result A.

(** Calling an async function without awaiting it: its external calls are
    issued, and its outcome is kept in the promise instead of being raised.
    The calls of a function that awaits several times are logged together,
    at the place of the call; when several such functions run concurrently
    the trace is one of the orders in which their calls can be issued. *)
Definition spawn {A} (m : M A) : M (Promise A) :=
  fun t => let (r, t') := m t in (Ok r, t').

Definition await {A} (p : Promise A) : M A := fun t => (p, t).

(** [await] of a variable that holds a promise or [undefined]. *)
Definition awaitOptional {A} (p : option (Promise A)) : M unit :=
  match p with
  | Some q => _ <- await q ;; ret tt
  | None => ret tt
  end.

(** [Promise.all] of two promises; nested, it joins longer arrays.  The
    rejection of the earlier element is the one reported. *)
Definition all2 {A B} (p : Promise A) (q : Promise B) : Promise (A * B) :=
  match p, q with
  | Ok a, Ok b => Ok (a, b)
  | Err e, _ => Err e
  | Ok _, Err e => Err e
  end.

(** Calling a method that the object may lack. *)
Definition invoke {A B} (method : string) (f : option (A -> M B)) (a : A)
  : M (Promise B) :=
  match f with
  | Some g => spawn (g a)
  | None => throw (TypeError (method ++ " is not a function"))
  end.

(** The summary record; [underlyingBalanceOf] is [None] when the object has
    no such property. *)
Module Summary.
Record t := {
  address : Address;
  user : Address;
  pool : Descriptor.t;
  isActive : bool;
  stakedBalance : Z;
  unstakedBalance : Z;
  earnedRewards : Z;
  percentageOwnership : string;
  usdValueOf : Z;
  underlyingBalanceOf : option jsval
}.

(** [output.underlyingBalanceOf = v]. *)
Definition setUnderlyingBalanceOf (output : t) (v : jsval) : t :=
  {| address := address output;
     user := user output;
     pool := pool output;
     isActive := isActive output;
     stakedBalance := stakedBalance output;
     unstakedBalance := unstakedBalance output;
     earnedRewards := earnedRewards output;
     percentageOwnership := percentageOwnership output;
     usdValueOf := usdValueOf output;
     underlyingBalanceOf := Some v |}.
End Summary.

(** ** The pool classes *)

(** A [RewardsPool] instance: the fields of the contract binding it extends
    ([address], [abi], [provider]) and its own properties.  The two
    properties that only some instances have are optional. *)
Record RewardsPool := {
  address : Address;
  abi : ABI;
  provider : Connection;
  name : string;
  _pool : Descriptor.t;
  lptoken : Token.t;
  reward : Token.t;
  unstakedBalance : Address -> M Z;
  stakedBalance : Address -> M Z;
  underlyingBalanceOf : option (Address -> jsval -> M Z);
  earnedRewards : option (Address -> M Z)
}.

(** [this.earnedRewards = f], and a method a subclass defines. *)
Definition setEarnedRewards (this : RewardsPool) (f : Address -> M Z)
  : RewardsPool :=
  {| address := address this;
     abi := abi this;
     provider := provider this;
     name := name this;
     _pool := _pool this;
     lptoken := lptoken this;
     reward := reward this;
     unstakedBalance := unstakedBalance this;
     stakedBalance := stakedBalance this;
     underlyingBalanceOf := underlyingBalanceOf this;
     earnedRewards := Some f |}.

Section Pool.

Variable w : World.

(** One external query: it is logged and the world answers it. *)
Definition call (c : Call) : M Z :=
  fun t => (answer w c, (t ++ [Read c])%list).

(** One transaction submission. *)
Definition send (x : Tx) : M Receipt :=
  fun t => (settle w x, (t ++ [Send x])%list).

(** The token adapter's methods. *)
Definition Token_balanceOf (token : Token.t) (user : Address) : M Z :=
  call (TokenBalanceOf token user).

Definition Token_allowances (token : Token.t) (owner spender : Address) : M Z :=
  call (TokenAllowances token owner spender).

Definition Token_usdValueOf (token : Token.t) (amount : Z) : M Z :=
  call (TokenUsdValueOf token amount).

Definition Token_calcShare (token : Token.t) (balance : Z) (passthrough : jsval)
  : M Z :=
  call (TokenCalcShare token balance passthrough).

Definition Token_approve (token : Token.t) (spender : Address) (amount : Z)
  : M Receipt :=
  send (TokenApprove token spender amount).

(** The methods the ABI gives the contract bound to [contract]. *)
Definition Contract_balanceOf (contract user : Address) : M Z :=
  call (ContractBalanceOf contract user).

Definition Contract_totalSupply (contract : Address) : M Z :=
  call (ContractTotalSupply contract).

Definition Contract_earned (contract user : Address) : M Z :=
  call (ContractEarned contract user).

Definition Contract_stake (contract : Address) (amount : Z) : M Receipt :=
  send (ContractStake contract amount).

Definition balanceOf (this : RewardsPool) : Address -> M Z :=
  Contract_balanceOf (address this).

Definition totalSupply (this : RewardsPool) : M Z :=
  Contract_totalSupply (address this).

Definition earned (this : RewardsPool) : Address -> M Z :=
  Contract_earned (address this).

Definition stake (this : RewardsPool) : Z -> M Receipt :=
  Contract_stake (address this).

(** [constructor(pool, abi, provider)] of [RewardsPool].  An empty name
    is falsy and gives way to the asset's name like an absent one. *)
Definition RewardsPool_constructor
  (pool : Descriptor.t) (abi : ABI) (provider : Connection) : RewardsPool :=
  let lptoken := fromAsset w (Descriptor.asset pool) provider in
  let reward := fromAsset w (Descriptor.rewardAsset pool) provider in
  let balanceOf := Contract_balanceOf (Descriptor.address pool) in
  {| address := Descriptor.address pool;
     abi := abi;
     provider := contractProvider provider;
     name :=
       match Descriptor.name pool with
       | Some n => if String.eqb n "" then Asset.name (Descriptor.asset pool) else n
       | None => Asset.name (Descriptor.asset pool)
       end;
     _pool := pool;
     lptoken := lptoken;
     reward := reward;
     unstakedBalance := Token_balanceOf lptoken;
     stakedBalance := balanceOf;
     underlyingBalanceOf :=
       if Token.underlyingBalanceOf lptoken then
         Some (fun address passthrough =>
                 balance <- balanceOf address ;;
                 Token_calcShare lptoken balance passthrough)
       else None;
     earnedRewards := None |}.

(** [AutoCompoundingRewardsPool]: the method [earnedRewards] of the class
    takes no argument and makes no call. *)
Definition AutoCompoundingRewardsPool
  (pool : Descriptor.t) (provider : Connection) : RewardsPool :=
  setEarnedRewards (RewardsPool_constructor pool AUTO_REWARDS_ABI provider)
    (fun _ => ret 0).

(** [HarvestRewardsPool]: [this.earnedRewards = this.earned]. *)
Definition HarvestRewardsPool
  (pool : Descriptor.t) (provider : Connection) : RewardsPool :=
  let this := RewardsPool_constructor pool REWARDS_ABI provider in
  setEarnedRewards this (earned this).

(** [static fromPool(pool, provider)]: a [switch] on [pool.type] with the
    one case ['autocompounding']. *)
Definition fromPool (pool : Descriptor.t) (provider : Connection) : RewardsPool :=
  match Descriptor.type pool with
  | Some tag =>
      if String.eqb tag "autocompounding"
      then AutoCompoundingRewardsPool pool provider
      else HarvestRewardsPool pool provider
  | None => HarvestRewardsPool pool provider
  end.

(** [async usdValueOf(address)]. *)
Definition usdValueOf (this : RewardsPool) (address : Address) : M Z :=
  p1 <- spawn (stakedBalance this address) ;;
  p2 <- invoke "this.earnedRewards" (earnedRewards this) address ;;
  '(stakedBalance, rewardBalance) <- await (all2 p1 p2) ;;
  q1 <- spawn (Token_usdValueOf (lptoken this) stakedBalance) ;;
  q2 <- spawn (Token_usdValueOf (reward this) rewardBalance) ;;
  '(stakedValue, rewardValue) <- await (all2 q1 q2) ;;
  ret (stakedValue + rewardValue).

(** [async percentageOfTotal(tokens)]. *)
Definition percentageOfTotal (this : RewardsPool) (tokens : Z) : M string :=
  if tokens =? 0 then ret "0%" else
  total <- totalSupply this ;;
  if total =? 0 then ret "0%" else
  amnt <- await (Ethers.div (tokens * WeiPerEther) total) ;;
  ret (slice0 5 (formatUnits amnt 16) ++ "%").

(** [async percentageOwnership(address)]. *)
Definition percentageOwnership (this : RewardsPool) (address : Address)
  : M string :=
  tokens <- balanceOf this address ;;
  percentageOfTotal this tokens.

(** [isActive()]. *)
Definition isActive (this : RewardsPool) : bool :=
  isAddressActive w (address this).

(** The local function [underlying] of [summary]. *)
Definition underlying (this : RewardsPool) (address : Address) : M jsval :=
  match underlyingBalanceOf this with
  | Some f => v <- f address Undefined ;; ret (BigNumber v)
  | None => ret EmptyObject
  end.

(** [async summary(address)]. *)
Definition summary (this : RewardsPool) (address' : Address) : M Summary.t :=
  p1 <- spawn (stakedBalance this address') ;;
  p2 <- spawn (unstakedBalance this address') ;;
  p3 <- invoke "this.earnedRewards" (earnedRewards this) address' ;;
  p4 <- spawn (underlying this address') ;;
  p5 <- spawn (percentageOwnership this address') ;;
  p6 <- spawn (usdValueOf this address') ;;
  '(stakedBalance, (unstakedBalance, (earnedRewards, (underlyingBalanceOf,
     (percentageOwnership, usdValueOf))))) <-
    await (all2 p1 (all2 p2 (all2 p3 (all2 p4 (all2 p5 p6))))) ;;
  let output :=
    {| Summary.address := address this;
       Summary.user := address';
       Summary.pool := _pool this;
       Summary.isActive := isActive this;
       Summary.stakedBalance := stakedBalance;
       Summary.unstakedBalance := unstakedBalance;
       Summary.earnedRewards := earnedRewards;
       Summary.percentageOwnership := percentageOwnership;
       Summary.usdValueOf := usdValueOf;
       Summary.underlyingBalanceOf := None |} in
  ret (if truthy underlyingBalanceOf
       then Summary.setUnderlyingBalanceOf output underlyingBalanceOf
       else output).

(** The amount after [if (!amnt || amnt.isZero()) amnt = balance]. *)
Definition defaultAmount (amnt : option Z) (balance : Z) : Z :=
  match amnt with
  | None => balance
  | Some a => if a =? 0 then balance else a
  end.

(** [async approveAndStake(amnt, approveForever)].  The connection that is
    tested and asked for its address is the contract's [provider]
    property; the address is passed on as a value. *)
Definition approveAndStake
  (this : RewardsPool) (amnt : option Z) (approveForever : bool)
  : M (option Receipt) :=
  if negb (isSigner (provider this)) then throw (Error "No signer") else
  match provider this with
  | Null => throw (TypeError "Cannot read properties of null")
  | Provider _ => throw (TypeError "this.provider.getAddress is not a function")
  | Signer me _ =>
      p1 <- spawn (Token_allowances (lptoken this) me (address this)) ;;
      p2 <- spawn (Token_balanceOf (lptoken this) me) ;;
      '(allowance, balance) <- await (all2 p1 p2) ;;
      let amnt := defaultAmount amnt balance in
      if balance <? amnt then ret None else
      approveTx <-
        (if approveForever || (allowance <? balance) then
           tx <- spawn (Token_approve (lptoken this) (address this)
                          (if approveForever then MaxUint256 else amnt)) ;;
           ret (Some tx)
         else ret None) ;;
      stakeTx <- spawn (stake this amnt) ;;
      _ <- awaitOptional approveTx ;;
      receipt <- await stakeTx ;;
      ret (Some receipt)
  end.

End Pool.

(** The two reads with which a signer's call begins. *)
Definition firstReads (this : RewardsPool) (me : Address) : trace :=
  [Read (TokenAllowances (lptoken this) me (address this));
   Read (TokenBalanceOf (lptoken this) me)].

(** The transactions submitted along a trace. *)
Fixpoint transactions (t : trace) : list Tx :=
  match t with
  | [] => []
  | Send x :: t' => x :: transactions t'
  | Read _ :: t' => transactions t'
  end.

(** ** A concrete world and concrete pools *)

Module Fixture.

Definition lpAsset : Asset.t :=
  {| Asset.name := "fUNI-V2"; Asset.address := "0xA55E7" |}.

Definition farm : Asset.t :=
  {| Asset.name := "FARM"; Asset.address := "0xFA12" |}.

(** A chain on which the user stakes 25 of a total of 100 and has earned
    7; [wallet] is what the user holds unstaked and [allowance] what the
    user has approved. *)
Definition chain (wallet allowance : Z) (c : Call) : result Z :=
  match c with
  | ContractBalanceOf _ _ => Ok 25
  | ContractTotalSupply _ => Ok 100
  | ContractEarned _ _ => Ok 7
  | TokenBalanceOf _ _ => Ok wallet
  | TokenAllowances _ _ _ => Ok allowance
  | TokenUsdValueOf _ n => Ok (2 * n)
  | TokenCalcShare _ b _ => Ok (3 * b)
  end.

Definition mined (x : Tx) : result Receipt :=
  match x with
  | TokenApprove _ _ _ => Ok "0xapproved"
  | ContractStake _ _ => Ok "0xstaked"
  end.

(** [shares] says whether the adapters convert shares. *)
Definition world (shares : bool) (wallet allowance : Z) : World :=
  {| fromAsset := fun a c =>
       {| Token.asset := a; Token.provider := c;
          Token.underlyingBalanceOf := shares |};
     isAddressActive := fun _ => true;
     answer := chain wallet allowance;
     settle := mined |}.

Definition descriptor (tag : option string) : Descriptor.t :=
  {| Descriptor.address := "0xP001";
     Descriptor.name := None;
     Descriptor.asset := lpAsset;
     Descriptor.rewardAsset := farm;
     Descriptor.type := tag |}.

Definition alice : Address := "0xA11CE".

(** A signer connected to a provider. *)
Definition signer : Connection := Signer alice (Provider "mainnet").

(** A signer whose own provider is a signer for [alice]: the contract's
    [provider] property is then that inner signer. *)
Definition nested : Connection := Signer "0x0FF1CE" signer.

Definition readOnly : Connection := Provider "mainnet".

(** The lp-token adapter of the pools built from [descriptor]. *)
Definition lp (shares : bool) (c : Connection) : Token.t :=
  {| Token.asset := lpAsset; Token.provider := c;
     Token.underlyingBalanceOf := shares |}.

End Fixture.

(** ** The registry's cohorts *)

(** The lists of descriptors that [data/deploys.js] exports; the module is
    not among the sources, so the lists are a parameter. *)
Module Data.
Record t := {
  pools : list Descriptor.t;
  weekOnePools : list Descriptor.t;
  weekTwoPools : list Descriptor.t;
  activePools : list Descriptor.t;
  inactivePools : list Descriptor.t;
  allPastPools : list Descriptor.t
}.
End Data.

Section Cohorts.

Variable w : World.
Variable data : Data.t.

(** [static knownPools(provider)]. *)
Definition knownPools (provider : Connection) : list RewardsPool :=
  map (fun pool => fromPool w pool provider) (Data.pools data).

(** [static weekOne(provider)]. *)
Definition weekOne (provider : Connection) : list RewardsPool :=
  map (fun pool => fromPool w pool provider) (Data.weekOnePools data).

(** [static weekTwo(provider)]. *)
Definition weekTwo (provider : Connection) : list RewardsPool :=
  map (fun pool => fromPool w pool provider) (Data.weekTwoPools data).

(** [static activePools(provider)]. *)
Definition activePools (provider : Connection) : list RewardsPool :=
  map (fun pool => fromPool w pool provider) (Data.activePools data).

(** [static inactivePools(provider)]. *)
Definition inactivePools (provider : Connection) : list RewardsPool :=
  map (fun pool => fromPool w pool provider) (Data.inactivePools data).

(** [static allPastPools(provider)]. *)
Definition allPastPools (provider : Connection) : list RewardsPool :=
  map (fun pool => fromPool w pool provider) (Data.allPastPools data).

End Cohorts.

(** ** Vocabulary of the properties *)

(** A computation that submits no transaction, from whatever trace it
    starts. *)
Definition sendsNothing {A} (m : M A) : Prop :=
  forall t, transactions (snd (m t)) = transactions t.

(** The pool is known to the class hierarchy: it has the method
    [earnedRewards]. *)
Definition hasEarnedRewards (this : RewardsPool) : bool :=
  match earnedRewards this with
  | Some _ => true
  | None => false
  end.

(** ** Worlds with failures *)

Module Outage.

Definition timeout : error := Rejected "timeout".

Definition reverted : error := Rejected "execution reverted".

(** The chain of [Fixture] with a wallet of 100 and an allowance of 0,
    except that the queries [broken] selects time out. *)
Definition chain (broken : Call -> bool) (c : Call) : result Z :=
  if broken c then Err timeout else Fixture.chain 100 0 c.

(** Transactions are mined, except that the ones [failing] selects
    revert. *)
Definition mined (failing : Tx -> bool) (x : Tx) : result Receipt :=
  if failing x then Err reverted else Fixture.mined x.

Definition world (broken : Call -> bool) (failing : Tx -> bool) : World :=
  {| fromAsset := fun a c =>
       {| Token.asset := a; Token.provider := c;
          Token.underlyingBalanceOf := true |};
     isAddressActive := fun _ => false;
     answer := chain broken;
     settle := mined failing |}.

Definition stakedBalanceDown (c : Call) : bool :=
  match c with
  | ContractBalanceOf _ _ => true
  | _ => false
  end.

Definition walletDown (c : Call) : bool :=
  match c with
  | TokenBalanceOf _ _ => true
  | _ => false
  end.

Definition rewardPricingDown (c : Call) : bool :=
  match c with
  | TokenUsdValueOf token _ => String.eqb (Asset.name (Token.asset token)) "FARM"
  | _ => false
  end.

Definition nothingDown (c : Call) : bool := false.

Definition approvalFails (x : Tx) : bool :=
  match x with
  | TokenApprove _ _ _ => true
  | ContractStake _ _ => false
  end.

Definition nothingFails (x : Tx) : bool := false.

(** The lp-token and reward adapters of the pools built in these worlds. *)
Definition lp (c : Connection) : Token.t :=
  {| Token.asset := Fixture.lpAsset; Token.provider := c;
     Token.underlyingBalanceOf := true |}.

Definition farm (c : Connection) : Token.t :=
  {| Token.asset := Fixture.farm; Token.provider := c;
     Token.underlyingBalanceOf := true |}.

(** The chain of [Fixture], with a total supply of [10^20]. *)
Definition diluted (c : Call) : result Z :=
  match c with
  | ContractTotalSupply _ => Ok (10 ^ 20)
  | _ => Fixture.chain 100 0 c
  end.

Definition dilutedWorld : World :=
  {| fromAsset := fun a c =>
       {| Token.asset := a; Token.provider := c;
          Token.underlyingBalanceOf := true |};
     isAddressActive := fun _ => false;
     answer := diluted;
     settle := Fixture.mined |}.

(** The chain of [Fixture], with a total supply of 3. *)
Definition thirds (c : Call) : result Z :=
  match c with
  | ContractTotalSupply _ => Ok 3
  | _ => Fixture.chain 100 0 c
  end.

Definition thirdsWorld : World :=
  {| fromAsset := fun a c =>
       {| Token.asset := a; Token.provider := c;
          Token.underlyingBalanceOf := true |};
     isAddressActive := fun _ => false;
     answer := thirds;
     settle := Fixture.mined |}.

(** A registry with two pools, one of each class. *)
Definition registry : Data.t :=
  {| Data.pools :=
       [Fixture.descriptor (Some "autocompounding"%string);
        Fixture.descriptor None];
     Data.weekOnePools := [Fixture.descriptor None];
     Data.weekTwoPools := [];
     Data.activePools := [Fixture.descriptor (Some "autocompounding"%string)];
     Data.inactivePools := [Fixture.descriptor None];
     Data.allPastPools := [] |}.

End Outage.

(** * Properties *)

Local Open Scope list_scope.

(** ** The monad and the trace *)

Lemma bind_ret {A B} (a : A) (k : A -> M B) (t : trace) :
  bind (ret a) k t = k a t.
Proof. reflexivity. Qed.

Lemma bind_throw {A B} (e : error) (k : A -> M B) (t : trace) :
  bind (throw e) k t = (Err e, t).
Proof. reflexivity. Qed.

Lemma spawn_never_raises {A} (m : M A) (t : trace) :
  exists p, fst (spawn m t) = Ok p.
Proof. unfold spawn. destruct (m t) as [r t']. exists r. reflexivity. Qed.

Lemma transactions_app (t u : trace) :
  transactions (t ++ u) = transactions t ++ transactions u.
Proof.
  induction t as [| [c | x] t IH]; simpl.
  - reflexivity.
  - exact IH.
  - now rewrite IH.
Qed.

Lemma app_two {A} (t : list A) (x y : A) :
  (t ++ [x]) ++ [y] = t ++ [x; y].
Proof. now rewrite <- app_assoc. Qed.

(** ** The formatting utility on sample ratios *)

Example formatUnits_third :
  formatUnits 333333333333333333 16 = "33.3333333333333333".
Proof. vm_compute. reflexivity. Qed.

Example formatUnits_whole : formatUnits (10 ^ 18) 16 = "100.0".
Proof. vm_compute. reflexivity. Qed.

Example formatUnits_small : formatUnits 50000000000000 16 = "0.005".
Proof. vm_compute. reflexivity. Qed.

(** ** The factory *)

Section Factory.

Variable w : World.

Lemma fromPool_autocompounding pool conn :
  Descriptor.type pool = Some "autocompounding" ->
  fromPool w pool conn = AutoCompoundingRewardsPool w pool conn.
Proof. intros H. unfold fromPool. now rewrite H. Qed.

Lemma fromPool_default pool conn :
  Descriptor.type pool <> Some "autocompounding" ->
  fromPool w pool conn = HarvestRewardsPool w pool conn.
Proof.
  intros H. unfold fromPool.
  destruct (Descriptor.type pool) as [tag |]; [| reflexivity].
  destruct (String.eqb_spec tag "autocompounding") as [-> | _].
  - now contradiction H.
  - reflexivity.
Qed.

(** The fields the base constructor sets are the same in both classes. *)
Lemma fromPool_fields pool conn :
  address (fromPool w pool conn) = Descriptor.address pool /\
  provider (fromPool w pool conn) = contractProvider conn /\
  _pool (fromPool w pool conn) = pool /\
  lptoken (fromPool w pool conn) = fromAsset w (Descriptor.asset pool) conn /\
  stakedBalance (fromPool w pool conn) =
    Contract_balanceOf w (Descriptor.address pool).
Proof.
  unfold fromPool.
  destruct (Descriptor.type pool) as [tag |];
    [destruct (String.eqb tag "autocompounding") |]; repeat split.
Qed.

(** C2, as the code has it: for every descriptor whose [type] is
    ["autocompounding"], the pool [fromPool] returns has an
    [earnedRewards] method that resolves to [0] for every address, in
    every world and without a single external call. *)
Theorem fromPool_autocompounding_earns_nothing pool conn :
  Descriptor.type pool = Some "autocompounding" ->
  exists f,
    earnedRewards (fromPool w pool conn) = Some f /\
    forall (user : Address) (t : trace), f user t = (Ok 0, t).
Proof.
  intros H. rewrite (fromPool_autocompounding _ _ H).
  exists (fun _ => ret 0). split; reflexivity.
Qed.

(** C3: for every descriptor whose [type] is not the one tag the factory
    knows (["harvest"], any other string, or no tag at all), [fromPool]
    returns the harvest pool, and its [earnedRewards] is the contract's
    [earned] itself: one query to the contract at the descriptor's
    address, whose outcome is passed on unchanged. *)
Theorem fromPool_default_delegates_to_earned pool conn :
  Descriptor.type pool <> Some "autocompounding" ->
  fromPool w pool conn = HarvestRewardsPool w pool conn /\
  earnedRewards (fromPool w pool conn) = Some (earned w (fromPool w pool conn)) /\
  forall (user : Address) (t : trace),
    earned w (fromPool w pool conn) user t =
      (answer w (ContractEarned (Descriptor.address pool) user),
       t ++ [Read (ContractEarned (Descriptor.address pool) user)]).
Proof.
  intros H. rewrite (fromPool_default _ _ H).
  repeat split.
Qed.

(** C9: on every pool the factory builds, [percentageOwnership(addr)] is
    [percentageOfTotal] applied to what [stakedBalance(addr)] resolves
    to, and [stakedBalance] is the contract's [balanceOf]. *)
Theorem percentageOwnership_of_stakedBalance pool conn (user : Address) (t : trace) :
  stakedBalance (fromPool w pool conn) = balanceOf w (fromPool w pool conn) /\
  percentageOwnership w (fromPool w pool conn) user t =
    (tokens <- stakedBalance (fromPool w pool conn) user ;;
     percentageOfTotal w (fromPool w pool conn) tokens) t.
Proof.
  destruct (fromPool_fields pool conn) as (Ha & _ & _ & _ & Hs).
  split.
  - rewrite Hs. unfold balanceOf. now rewrite Ha.
  - unfold percentageOwnership, balanceOf. rewrite Hs, Ha. reflexivity.
Qed.

End Factory.

(** ** Approve and stake *)

Section Staking.

Variable w : World.

Lemma defaultAmount_absent balance : defaultAmount None balance = balance.
Proof. reflexivity. Qed.

Lemma defaultAmount_zero balance : defaultAmount (Some 0) balance = balance.
Proof. reflexivity. Qed.

Lemma defaultAmount_balance balance :
  defaultAmount (Some balance) balance = balance.
Proof. unfold defaultAmount. now destruct (balance =? 0). Qed.

Lemma defaultAmount_given amount balance :
  amount <> 0 -> defaultAmount (Some amount) balance = amount.
Proof.
  intros H. unfold defaultAmount.
  destruct (Z.eqb_spec amount 0); [contradiction | reflexivity].
Qed.

(** Unfolds the flow down to the world's answers. *)
Ltac run_flow :=
  unfold approveAndStake, bind, spawn, await, awaitOptional, all2, ret, throw,
    Token_allowances, Token_balanceOf, Token_approve, stake, Contract_stake,
    call, send, bind, await, ret;
  cbn [isSigner negb fst snd].

(** C6: when the connection is not a signer the call is rejected with the
    error [No signer], and the trace is the one it started with: no read and
    no transaction has been issued. *)
Theorem approveAndStake_no_signer this amnt approveForever t :
  isSigner (provider this) = false ->
  approveAndStake w this amnt approveForever t = (Err (Error "No signer"), t).
Proof.
  intros H. unfold approveAndStake. rewrite H. reflexivity.
Qed.


(** The trace of a call that gets past the signer check and the balance
    check, with both reads answered. *)
Lemma approveAndStake_trace this me inner amnt approveForever allowance balance t :
  provider this = Signer me inner ->
  answer w (TokenAllowances (lptoken this) me (address this)) = Ok allowance ->
  answer w (TokenBalanceOf (lptoken this) me) = Ok balance ->
  (balance <? defaultAmount amnt balance) = false ->
  snd (approveAndStake w this amnt approveForever t) =
    t ++ firstReads this me ++
      (if approveForever || (allowance <? balance)
       then [Send (TokenApprove (lptoken this) (address this)
                     (if approveForever then MaxUint256
                      else defaultAmount amnt balance))]
       else []) ++
      [Send (ContractStake (address this) (defaultAmount amnt balance))].
Proof.
  intros Hme Hall Hbal Hcheck.
  run_flow; rewrite Hme; run_flow; rewrite Hall, Hbal, Hcheck.
  unfold firstReads.
  destruct (approveForever || (allowance <? balance)); run_flow.
  - destruct (settle w (TokenApprove _ _ _));
      [destruct (settle w (ContractStake _ _)) |];
      cbn [snd]; rewrite <- !app_assoc; reflexivity.
  - destruct (settle w (ContractStake _ _));
      cbn [snd]; rewrite <- !app_assoc; reflexivity.
Qed.

(** The outcome and the trace of such a call. *)
Lemma approveAndStake_run this me inner amnt approveForever allowance balance t :
  provider this = Signer me inner ->
  answer w (TokenAllowances (lptoken this) me (address this)) = Ok allowance ->
  answer w (TokenBalanceOf (lptoken this) me) = Ok balance ->
  (balance <? defaultAmount amnt balance) = false ->
  approveAndStake w this amnt approveForever t =
    (let staked :=
       match settle w (ContractStake (address this)
                         (defaultAmount amnt balance)) with
       | Ok receipt => Ok (Some receipt)
       | Err e => Err e
       end in
     if approveForever || (allowance <? balance) then
       match settle w (TokenApprove (lptoken this) (address this)
                         (if approveForever then MaxUint256
                          else defaultAmount amnt balance)) with
       | Ok _ => staked
       | Err e => Err e
       end
     else staked,
     t ++ firstReads this me ++
       (if approveForever || (allowance <? balance)
        then [Send (TokenApprove (lptoken this) (address this)
                      (if approveForever then MaxUint256
                       else defaultAmount amnt balance))]
        else []) ++
       [Send (ContractStake (address this) (defaultAmount amnt balance))]).
Proof.
  intros Hme Hall Hbal Hcheck.
  run_flow; rewrite Hme; run_flow; rewrite Hall, Hbal, Hcheck.
  unfold firstReads.
  destruct (approveForever || (allowance <? balance)); run_flow.
  - destruct (settle w (TokenApprove _ _ _));
      [destruct (settle w (ContractStake _ _)) |];
      rewrite <- !app_assoc; reflexivity.
  - destruct (settle w (ContractStake _ _));
      rewrite <- !app_assoc; reflexivity.
Qed.

(** C5: for a signer whose wallet balance is [balance], the call without an
    amount and the call with the amount zero are the call with [balance]:
    same outcome, same reads, same transactions.  With the allowance read
    answered, that call is spelled out: the balance check lets it pass, the
    approval (when one is due and not unlimited) is for [balance], and the
    stake is for [balance]. *)
Theorem approveAndStake_defaults_to_balance
  this me inner approveForever balance t :
  provider this = Signer me inner ->
  answer w (TokenBalanceOf (lptoken this) me) = Ok balance ->
  approveAndStake w this None approveForever t =
    approveAndStake w this (Some balance) approveForever t /\
  approveAndStake w this (Some 0) approveForever t =
    approveAndStake w this (Some balance) approveForever t /\
  forall allowance amnt,
    answer w (TokenAllowances (lptoken this) me (address this)) = Ok allowance ->
    amnt = None \/ amnt = Some 0 ->
    approveAndStake w this amnt approveForever t =
      (let staked :=
         match settle w (ContractStake (address this) balance) with
         | Ok receipt => Ok (Some receipt)
         | Err e => Err e
         end in
       if approveForever || (allowance <? balance) then
         match settle w (TokenApprove (lptoken this) (address this)
                           (if approveForever then MaxUint256 else balance)) with
         | Ok _ => staked
         | Err e => Err e
         end
       else staked,
       t ++ firstReads this me ++
         (if approveForever || (allowance <? balance)
          then [Send (TokenApprove (lptoken this) (address this)
                        (if approveForever then MaxUint256 else balance))]
          else []) ++
         [Send (ContractStake (address this) balance)]).
Proof.
  intros Hme Hbal.
  split; [| split].
  - run_flow; rewrite Hme; run_flow; rewrite Hbal;
      destruct (answer w (TokenAllowances (lptoken this) me (address this)));
      try reflexivity;
      rewrite ?defaultAmount_absent, !defaultAmount_balance; reflexivity.
  - run_flow; rewrite Hme; run_flow; rewrite Hbal;
      destruct (answer w (TokenAllowances (lptoken this) me (address this)));
      try reflexivity;
      rewrite ?defaultAmount_zero, !defaultAmount_balance; reflexivity.
  - intros allowance amnt Hall Hamnt.
    assert (Hd : defaultAmount amnt balance = balance)
      by (destruct Hamnt as [-> | ->]; reflexivity).
    assert (Hcheck : (balance <? defaultAmount amnt balance) = false)
      by (rewrite Hd; apply Z.ltb_irrefl).
    rewrite (approveAndStake_run _ _ _ _ _ _ _ _ Hme Hall Hbal Hcheck), Hd.
    reflexivity.
Qed.

(** C7: past the signer check and the balance check, the approval is
    submitted exactly when [approveForever] is set or the allowance is below
    the wallet balance; it is then the first transaction, for [MaxUint256]
    when [approveForever] is set and otherwise for the amount staked, which
    is the amount asked for when one is given and is not zero, and the
    wallet balance when the amount is absent or zero.  In the other case
    the stake is the only transaction. *)
Theorem approveAndStake_approval_condition
  this me inner amnt (amount : Z) approveForever allowance balance t :
  provider this = Signer me inner ->
  answer w (TokenAllowances (lptoken this) me (address this)) = Ok allowance ->
  answer w (TokenBalanceOf (lptoken this) me) = Ok balance ->
  amnt = Some amount /\ amount <> 0 \/
  (amnt = None \/ amnt = Some 0) /\ amount = balance ->
  amount <= balance ->
  (approveForever = true \/ allowance < balance ->
   snd (approveAndStake w this amnt approveForever t) =
     t ++ firstReads this me ++
       [Send (TokenApprove (lptoken this) (address this)
                (if approveForever then MaxUint256 else amount));
        Send (ContractStake (address this) amount)]) /\
  (~ (approveForever = true \/ allowance < balance) ->
   snd (approveAndStake w this amnt approveForever t) =
     t ++ firstReads this me ++
       [Send (ContractStake (address this) amount)]).
Proof.
  intros Hme Hall Hbal Hamnt Hle.
  assert (Hd : defaultAmount amnt balance = amount).
  { destruct Hamnt as [[-> Hnz] | [[-> | ->] ->]];
      [now apply defaultAmount_given | reflexivity | reflexivity]. }
  assert (Hcheck : (balance <? defaultAmount amnt balance) = false)
    by (rewrite Hd; now apply Z.ltb_ge).
  rewrite (approveAndStake_trace _ _ _ _ _ _ _ _ Hme Hall Hbal Hcheck), Hd.
  split; intros Hc.
  - assert (Hb : approveForever || (allowance <? balance) = true).
    { destruct Hc as [-> | Hc]; [reflexivity |].
      apply orb_true_iff. right. now apply Z.ltb_lt. }
    rewrite Hb. reflexivity.
  - assert (Hb : approveForever || (allowance <? balance) = false).
    { apply orb_false_iff. split.
      - destruct approveForever; [exfalso; apply Hc; now left | reflexivity].
      - apply Z.ltb_ge. destruct (Z.lt_ge_cases allowance balance) as [Hlt | Hge];
          [exfalso; apply Hc; now right | exact Hge]. }
    rewrite Hb. reflexivity.
Qed.


End Staking.

(** ** Percentages and the summary *)

Section Reading.

Variable w : World.

(** [slice0] against the library's [substring], [prefix] and [length]. *)
Lemma slice0_substring (n : nat) (s : string) : slice0 n s = substring 0 n s.
Proof.
  revert s. induction n as [| n IH]; intros [| c s]; cbn; try reflexivity.
  now rewrite IH.
Qed.

Lemma slice0_length (n : nat) (s : string) :
  String.length (slice0 n s) = Nat.min n (String.length s).
Proof.
  revert s. induction n as [| n IH]; intros [| c s]; cbn; try reflexivity.
  now rewrite IH.
Qed.

Lemma slice0_prefix (n : nat) (s : string) : prefix (slice0 n s) s = true.
Proof.
  revert s. induction n as [| n IH]; intros [| c s]; cbn; try reflexivity.
  destruct (ascii_dec c c) as [_ | Hne]; [apply IH | now contradiction Hne].
Qed.

(** C8: [percentageOfTotal(a)] resolves to ["0%"] without a read when [a]
    is zero; otherwise it reads the total supply once and resolves to
    ["0%"] when that is zero, so that the division never sees a zero
    divisor; otherwise it resolves to the first five characters of
    [a * 10^18 / total] formatted with 16 decimals, followed by ["%"]:
    the characters kept are a prefix of the formatted ratio, five of them
    or the whole of a shorter string. *)
Theorem percentageOfTotal_cases this (a : Z) (t : trace) :
  (a = 0 -> percentageOfTotal w this a t = (Ok "0%"%string, t)) /\
  (a <> 0 ->
   answer w (ContractTotalSupply (address this)) = Ok 0 ->
   percentageOfTotal w this a t =
     (Ok "0%"%string, t ++ [Read (ContractTotalSupply (address this))])) /\
  (forall total,
     a <> 0 ->
     total <> 0 ->
     answer w (ContractTotalSupply (address this)) = Ok total ->
     let formatted := formatUnits (Z.quot (a * 10 ^ 18) total) 16 in
     exists digits,
       percentageOfTotal w this a t =
         (Ok (digits ++ "%")%string,
          t ++ [Read (ContractTotalSupply (address this))]) /\
       digits = substring 0 5 formatted /\
       prefix digits formatted = true /\
       String.length digits = Nat.min 5 (String.length formatted)).
Proof.
  unfold percentageOfTotal, totalSupply, Contract_totalSupply, call, bind, ret.
  repeat split.
  - intros ->. reflexivity.
  - intros Ha Hz. destruct (Z.eqb_spec a 0); [contradiction |].
    rewrite Hz. reflexivity.
  - intros total Ha Ht Hz. cbn zeta.
    exists (slice0 5 (formatUnits (Z.quot (a * 10 ^ 18) total) 16)).
    split; [| split; [apply slice0_substring
                     | split; [apply slice0_prefix | apply slice0_length]]].
    destruct (Z.eqb_spec a 0); [contradiction |].
    rewrite Hz. destruct (Z.eqb_spec total 0); [contradiction |].
    unfold Ethers.div, await.
    destruct (Z.eqb_spec total 0); [contradiction |]. reflexivity.
Qed.

(** Once the total supply is read, [percentageOfTotal] resolves: the
    division does not fault. *)
Lemma percentageOfTotal_resolves this (a total : Z) (t : trace) :
  answer w (ContractTotalSupply (address this)) = Ok total ->
  exists s, fst (percentageOfTotal w this a t) = Ok s.
Proof.
  intros Hz.
  unfold percentageOfTotal, totalSupply, Contract_totalSupply, call, bind, ret.
  destruct (a =? 0); [eexists; reflexivity |].
  rewrite Hz. destruct (Z.eqb_spec total 0); [eexists; reflexivity |].
  unfold Ethers.div, await.
  destruct (Z.eqb_spec total 0); [contradiction | eexists; reflexivity].
Qed.

(** What [summary] does with the outcome of [underlying]: the property is
    set on the output whenever the call resolves, with the converted
    balance when the pool converts shares and with the empty object when
    it does not. *)
Lemma summary_underlyingBalanceOf this (user : Address) (t t' : trace) out :
  summary w this user t = (Ok out, t') ->
  match underlyingBalanceOf this with
  | Some _ => exists v, Summary.underlyingBalanceOf out = Some (BigNumber v)
  | None => Summary.underlyingBalanceOf out = Some EmptyObject
  end.
Proof.
  unfold summary, underlying, invoke, bind, spawn, await, all2, ret, throw.
  destruct (stakedBalance this user t) as [r1 t1].
  destruct (unstakedBalance this user t1) as [r2 t2].
  destruct (earnedRewards this) as [f |]; [| discriminate].
  destruct (f user t2) as [r3 t3].
  destruct (underlyingBalanceOf this) as [g |].
  - destruct (g user Undefined t3) as [[v |] t4]; cbn beta iota;
      destruct (percentageOwnership w this user t4) as [r5 t5];
      destruct (usdValueOf w this user t5) as [r6 t6];
      destruct r1, r2, r3, r5, r6; try discriminate.
    intros H. inversion H. cbn. eauto.
  - destruct (percentageOwnership w this user t3) as [r5 t5].
    destruct (usdValueOf w this user t5) as [r6 t6].
    destruct r1, r2, r3, r5, r6; try discriminate.
    intros H. inversion H. reflexivity.
Qed.

End Reading.

(** ** The properties on the concrete world *)

Import Fixture.

(** C1, on the code: a pool whose lp-token adapter does not convert shares
    has no [underlyingBalanceOf] method, and yet its summary carries the
    property [underlyingBalanceOf], holding the empty object that the local
    function [underlying] returns: an object is truthy, so the test before
    the assignment lets it through. *)
Theorem summary_keeps_empty_placeholder :
  let world := Fixture.world false 100 0 in
  let this := fromPool world (descriptor None) signer in
  Token.underlyingBalanceOf (lptoken this) = false /\
  underlyingBalanceOf this = None /\
  exists out t,
    summary world this alice [] = (Ok out, t) /\
    Summary.underlyingBalanceOf out = Some EmptyObject.
Proof.
  cbn zeta. split; [reflexivity |]. split; [reflexivity |].
  eexists. eexists. split; [vm_compute; reflexivity | reflexivity].
Qed.

(** With a converting adapter the property holds the converted balance. *)
Example summary_includes_converted_balance :
  let world := Fixture.world true 100 0 in
  let this := fromPool world (descriptor None) signer in
  exists out t,
    summary world this alice [] = (Ok out, t) /\
    Summary.underlyingBalanceOf out = Some (BigNumber 75).
Proof.
  cbn zeta. eexists. eexists. split; [vm_compute; reflexivity | reflexivity].
Qed.

(** C2, as stated, fails: the tag ["auto-compounding"] is not the one the
    factory compares with, so the descriptor gets a harvest pool, whose
    [earnedRewards] asks the contract and resolves to the 7 it answers. *)
Lemma fromPool_hyphenated_tag_is_harvest :
  let world := Fixture.world false 100 0 in
  let pool := descriptor (Some "auto-compounding"%string) in
  Descriptor.type pool = Some "auto-compounding"%string /\
  fromPool world pool signer = HarvestRewardsPool world pool signer /\
  exists f,
    earnedRewards (fromPool world pool signer) = Some f /\
    f alice [] = (Ok 7, [Read (ContractEarned "0xP001" alice)]) /\
    fst (f alice []) <> Ok 0.
Proof.
  cbn zeta. split; [reflexivity |]. split; [reflexivity |].
  eexists. split; [reflexivity |]. split; [reflexivity | discriminate].
Qed.

Lemma fromPool_autocompounding_earns_nothing_witness :
  Descriptor.type (descriptor (Some "autocompounding"%string))
    = Some "autocompounding"%string /\
  exists f,
    earnedRewards
      (fromPool (Fixture.world false 100 0)
         (descriptor (Some "autocompounding"%string)) signer) = Some f /\
    forall (user : Address) (t : trace), f user t = (Ok 0, t).
Proof.
  split; [reflexivity |].
  apply (fromPool_autocompounding_earns_nothing (Fixture.world false 100 0)
           (descriptor (Some "autocompounding"%string)) signer).
  reflexivity.
Defined.

Lemma fromPool_default_delegates_to_earned_witness :
  Descriptor.type (descriptor (Some "harvest"%string))
    <> Some "autocompounding"%string /\
  earnedRewards
    (fromPool (Fixture.world false 100 0) (descriptor (Some "harvest"%string)) signer)
  = Some (earned (Fixture.world false 100 0)
            (fromPool (Fixture.world false 100 0)
               (descriptor (Some "harvest"%string)) signer)).
Proof.
  split; [discriminate |].
  destruct (fromPool_default_delegates_to_earned (Fixture.world false 100 0)
              (descriptor (Some "harvest"%string)) signer) as (_ & H & _);
    [discriminate |].
  exact H.
Defined.


(** [approveAndStake(0)] with a wallet balance of 100 and no allowance: 100
    are approved and staked, as by [approveAndStake(100)]. *)
Lemma approveAndStake_defaults_to_balance_witness :
  let world := Fixture.world false 100 0 in
  let this := fromPool world (descriptor None) nested in
  answer world (TokenBalanceOf (lptoken this) alice) = Ok 100 /\
  approveAndStake world this (Some 0) false [] =
    approveAndStake world this (Some 100) false [] /\
  approveAndStake world this (Some 0) false [] =
    (Ok (Some "0xstaked"%string),
     [Read (TokenAllowances (lp false nested) alice "0xP001");
      Read (TokenBalanceOf (lp false nested) alice);
      Send (TokenApprove (lp false nested) "0xP001" 100);
      Send (ContractStake "0xP001" 100)]).
Proof.
  cbn zeta. split; [reflexivity |].
  destruct (approveAndStake_defaults_to_balance (Fixture.world false 100 0)
              (fromPool (Fixture.world false 100 0) (descriptor None) nested)
              alice (Provider "mainnet") false 100 []) as (_ & Heq & Hrun);
    [reflexivity | reflexivity |].
  split; [exact Heq |].
  rewrite (Hrun 0 (Some 0)); [reflexivity | reflexivity | right; reflexivity].
Defined.

Lemma approveAndStake_no_signer_witness :
  let world := Fixture.world false 100 0 in
  let this := fromPool world (descriptor None) readOnly in
  isSigner (provider this) = false /\
  approveAndStake world this (Some 40) true [] = (Err (Error "No signer"), []).
Proof.
  cbn zeta. split; [reflexivity |].
  apply (approveAndStake_no_signer (Fixture.world false 100 0)
           (fromPool (Fixture.world false 100 0) (descriptor None) readOnly)
           (Some 40) true []).
  reflexivity.
Defined.

(** An allowance of 0 below a balance of 100: the approval is for the 40
    that are asked for, and for the whole 100 when no amount is given. *)
Lemma approveAndStake_approval_condition_witness :
  let world := Fixture.world false 100 0 in
  let this := fromPool world (descriptor None) nested in
  0 < 100 /\
  snd (approveAndStake world this (Some 40) false []) =
    [Read (TokenAllowances (lp false nested) alice "0xP001");
     Read (TokenBalanceOf (lp false nested) alice);
     Send (TokenApprove (lp false nested) "0xP001" 40);
     Send (ContractStake "0xP001" 40)] /\
  snd (approveAndStake world this None false []) =
    [Read (TokenAllowances (lp false nested) alice "0xP001");
     Read (TokenBalanceOf (lp false nested) alice);
     Send (TokenApprove (lp false nested) "0xP001" 100);
     Send (ContractStake "0xP001" 100)].
Proof.
  cbn zeta. split; [lia |]. split.
  - destruct (approveAndStake_approval_condition (Fixture.world false 100 0)
                (fromPool (Fixture.world false 100 0) (descriptor None) nested)
                alice (Provider "mainnet") (Some 40) 40 false 0 100 [])
      as [H _];
      [reflexivity | reflexivity | reflexivity | left; split; [reflexivity | lia]
      | lia |].
    apply H. right. lia.
  - destruct (approveAndStake_approval_condition (Fixture.world false 100 0)
                (fromPool (Fixture.world false 100 0) (descriptor None) nested)
                alice (Provider "mainnet") None 100 false 0 100 [])
      as [H _];
      [reflexivity | reflexivity | reflexivity
      | right; split; [left; reflexivity | reflexivity] | lia |].
    apply H. right. lia.
Defined.

(** One token of a supply of 3: the eighteen characters of the formatted
    ratio are cut to five. *)
Lemma percentageOfTotal_cases_witness :
  let this := fromPool Outage.thirdsWorld (descriptor None) signer in
  1 <> 0 /\ 3 <> 0 /\
  answer Outage.thirdsWorld (ContractTotalSupply (address this)) = Ok 3 /\
  formatUnits (Z.quot (1 * 10 ^ 18) 3) 16 = "33.3333333333333333"%string /\
  percentageOfTotal Outage.thirdsWorld this 1 [] =
    (Ok "33.33%"%string, [Read (ContractTotalSupply "0xP001")]).
Proof.
  cbn zeta. split; [lia |]. split; [lia |]. split; [reflexivity |].
  split; [vm_compute; reflexivity |].
  destruct (proj2 (proj2 (percentageOfTotal_cases Outage.thirdsWorld
              (fromPool Outage.thirdsWorld (descriptor None) signer)
              1 [])) 3) as (digits & Hrun & Hdigits & _);
    [lia | lia | reflexivity |].
  rewrite Hrun, Hdigits. vm_compute. reflexivity.
Defined.


(** The percentages of the concrete pool. *)
Example percentageOfTotal_one_of_hundred :
  fst (percentageOfTotal (Fixture.world false 100 0)
         (fromPool (Fixture.world false 100 0) (descriptor None) signer) 1 [])
  = Ok "1.0%"%string.
Proof. vm_compute. reflexivity. Qed.

Example percentageOfTotal_one_of_three :
  slice0 5 (formatUnits (Z.quot (1 * 10 ^ 18) 3) 16) = "33.33"%string.
Proof. vm_compute. reflexivity. Qed.

Example percentageOwnership_quarter :
  fst (percentageOwnership (Fixture.world false 100 0)
         (fromPool (Fixture.world false 100 0) (descriptor None) signer) alice [])
  = Ok "25.0%"%string.
Proof. vm_compute. reflexivity. Qed.

(** * Further properties of the module *)

(** ** Construction *)

Section Construction.

Variable w : World.

Lemma fromPool_cases pool conn :
  fromPool w pool conn = AutoCompoundingRewardsPool w pool conn \/
  fromPool w pool conn = HarvestRewardsPool w pool conn.
Proof.
  unfold fromPool.
  destruct (Descriptor.type pool) as [tag |];
    [destruct (String.eqb tag "autocompounding") |]; auto.
Qed.

Lemma fromPool_hasEarnedRewards pool conn :
  hasEarnedRewards (fromPool w pool conn) = true.
Proof. destruct (fromPool_cases pool conn) as [-> | ->]; reflexivity. Qed.

(** X1: whatever its class, a pool built by the factory is named after its
    descriptor when the descriptor has a name that is not empty, and after
    its staked asset when the name is absent or empty. *)
Theorem fromPool_name pool conn :
  (forall n, Descriptor.name pool = Some n -> n <> ""%string ->
             name (fromPool w pool conn) = n) /\
  (Descriptor.name pool = None \/ Descriptor.name pool = Some ""%string ->
   name (fromPool w pool conn) = Asset.name (Descriptor.asset pool)).
Proof.
  assert (Hname : name (fromPool w pool conn) =
                  name (RewardsPool_constructor w pool REWARDS_ABI conn)).
  { destruct (fromPool_cases pool conn) as [-> | ->]; reflexivity. }
  rewrite Hname. cbn [name RewardsPool_constructor]. split.
  - intros n Hn Hne. rewrite Hn.
    destruct (String.eqb_spec n ""); [contradiction | reflexivity].
  - intros [Hn | Hn]; rewrite Hn; reflexivity.
Qed.

(** X2: the two balance accessors of a factory-built pool are single
    queries whose outcome is passed on, failures included:
    [stakedBalance] asks the contract at the descriptor's address and
    [unstakedBalance] asks the adapter made from the descriptor's asset. *)
Theorem fromPool_balance_accessors pool conn (user : Address) (t : trace) :
  stakedBalance (fromPool w pool conn) user t =
    (answer w (ContractBalanceOf (Descriptor.address pool) user),
     t ++ [Read (ContractBalanceOf (Descriptor.address pool) user)]) /\
  unstakedBalance (fromPool w pool conn) user t =
    (answer w (TokenBalanceOf (fromAsset w (Descriptor.asset pool) conn) user),
     t ++ [Read (TokenBalanceOf (fromAsset w (Descriptor.asset pool) conn) user)]).
Proof.
  destruct (fromPool_cases pool conn) as [-> | ->]; split; reflexivity.
Qed.

(** X3: a factory-built pool has the method [underlyingBalanceOf] exactly
    when its lp-token adapter has the property.  The method reads the
    staked balance and converts that very balance, handing the
    [passthrough] argument on; when the balance read is rejected the
    method is rejected with the same error and no conversion is asked
    for. *)
Theorem fromPool_underlyingBalanceOf pool conn :
  let lp := fromAsset w (Descriptor.asset pool) conn in
  let staked user := ContractBalanceOf (Descriptor.address pool) user in
  (Token.underlyingBalanceOf lp = false ->
   underlyingBalanceOf (fromPool w pool conn) = None) /\
  (Token.underlyingBalanceOf lp = true ->
   exists f,
     underlyingBalanceOf (fromPool w pool conn) = Some f /\
     forall (user : Address) (passthrough : jsval) (t : trace),
       (forall balance,
          answer w (staked user) = Ok balance ->
          f user passthrough t =
            (answer w (TokenCalcShare lp balance passthrough),
             t ++ [Read (staked user);
                   Read (TokenCalcShare lp balance passthrough)])) /\
       (forall e,
          answer w (staked user) = Err e ->
          f user passthrough t = (Err e, t ++ [Read (staked user)]))).
Proof.
  cbn zeta.
  assert (Hu : underlyingBalanceOf (fromPool w pool conn) =
               underlyingBalanceOf (RewardsPool_constructor w pool REWARDS_ABI conn)).
  { destruct (fromPool_cases pool conn) as [-> | ->]; reflexivity. }
  rewrite Hu. cbn [underlyingBalanceOf RewardsPool_constructor].
  split; intros Hcap; rewrite Hcap; [reflexivity |].
  eexists. split; [reflexivity |].
  intros user passthrough t. split.
  - intros balance Hb.
    unfold bind, Contract_balanceOf, Token_calcShare, call. rewrite Hb.
    now rewrite app_two.
  - intros e Hb. unfold bind, Contract_balanceOf, call. now rewrite Hb.
Qed.

(** X4: the factory binds the contract with the ABI of the class it
    picks, [AUTO_REWARDS_ABI] exactly for the tag ["autocompounding"], and
    every pool it returns has the method [earnedRewards]. *)
Theorem fromPool_abi_and_method pool conn :
  (abi (fromPool w pool conn) = AUTO_REWARDS_ABI <->
   Descriptor.type pool = Some "autocompounding"%string) /\
  (abi (fromPool w pool conn) = REWARDS_ABI <->
   Descriptor.type pool <> Some "autocompounding"%string) /\
  hasEarnedRewards (fromPool w pool conn) = true.
Proof.
  unfold fromPool.
  destruct (Descriptor.type pool) as [tag |].
  - destruct (String.eqb_spec tag "autocompounding") as [-> | Hne];
      cbn; repeat split; try reflexivity; try discriminate;
      try congruence; intros H; congruence.
  - cbn. repeat split; try reflexivity; try discriminate; intros H; congruence.
Qed.

End Construction.

(** ** The cohorts *)

Section CohortProperties.

Variable w : World.

Lemma map_fromPool_faithful conn (l : list Descriptor.t) :
  map _pool (map (fun pool => fromPool w pool conn) l) = l /\
  map address (map (fun pool => fromPool w pool conn) l)
    = map Descriptor.address l /\
  forallb hasEarnedRewards (map (fun pool => fromPool w pool conn) l) = true.
Proof.
  induction l as [| pool l (IH1 & IH2 & IH3)]; [repeat split |].
  cbn [map forallb].
  destruct (fromPool_fields w pool conn) as (Ha & _ & Hp & _).
  rewrite Ha, Hp, (fromPool_hasEarnedRewards w pool conn), IH1, IH2, IH3.
  repeat split.
Qed.

(** X5: each of the six cohort functions returns one pool per descriptor
    of its registry list, in the list's order: the pools carry the
    descriptors themselves, are bound to the descriptors' addresses, and
    all have the method [earnedRewards]. *)
Theorem cohorts_follow_registry (data : Data.t) conn :
  let faithful (ps : list RewardsPool) (l : list Descriptor.t) :=
    map _pool ps = l /\
    map address ps = map Descriptor.address l /\
    forallb hasEarnedRewards ps = true in
  faithful (knownPools w data conn) (Data.pools data) /\
  faithful (weekOne w data conn) (Data.weekOnePools data) /\
  faithful (weekTwo w data conn) (Data.weekTwoPools data) /\
  faithful (activePools w data conn) (Data.activePools data) /\
  faithful (inactivePools w data conn) (Data.inactivePools data) /\
  faithful (allPastPools w data conn) (Data.allPastPools data).
Proof.
  cbn zeta.
  unfold knownPools, weekOne, weekTwo, activePools, inactivePools, allPastPools.
  repeat split; apply map_fromPool_faithful.
Qed.

End CohortProperties.

(** ** Reading never writes *)

Section ReadOnly.

Variable w : World.

Lemma sendsNothing_ret {A} (a : A) : sendsNothing (ret a).
Proof. intros t. reflexivity. Qed.

Lemma sendsNothing_throw {A} (e : error) : sendsNothing (@throw A e).
Proof. intros t. reflexivity. Qed.

Lemma sendsNothing_await {A} (p : Promise A) : sendsNothing (await p).
Proof. intros t. reflexivity. Qed.

Lemma sendsNothing_call (c : Call) : sendsNothing (call w c).
Proof.
  intros t. unfold call. cbn [snd].
  rewrite transactions_app. cbn. apply app_nil_r.
Qed.

Lemma sendsNothing_bind {A B} (m : M A) (k : A -> M B) :
  sendsNothing m -> (forall a, sendsNothing (k a)) -> sendsNothing (bind m k).
Proof.
  intros Hm Hk t. unfold bind. specialize (Hm t).
  destruct (m t) as [[a | e] t1]; cbn [snd] in *.
  - now rewrite Hk.
  - exact Hm.
Qed.

Lemma sendsNothing_spawn {A} (m : M A) : sendsNothing m -> sendsNothing (spawn m).
Proof.
  intros Hm t. unfold spawn. specialize (Hm t).
  destruct (m t) as [r t1]. exact Hm.
Qed.

Lemma sendsNothing_invoke {A B} method (f : option (A -> M B)) (a : A) :
  (forall g, f = Some g -> sendsNothing (g a)) ->
  sendsNothing (invoke method f a).
Proof.
  intros H. destruct f as [g |]; cbn [invoke].
  - apply sendsNothing_spawn. now apply H.
  - apply sendsNothing_throw.
Qed.

Lemma percentageOfTotal_sendsNothing this (tokens : Z) :
  sendsNothing (percentageOfTotal w this tokens).
Proof.
  unfold percentageOfTotal.
  destruct (tokens =? 0); [apply sendsNothing_ret |].
  apply sendsNothing_bind; [apply sendsNothing_call |].
  intros total. destruct (total =? 0); [apply sendsNothing_ret |].
  apply sendsNothing_bind; [apply sendsNothing_await |].
  intros amnt. apply sendsNothing_ret.
Qed.

(** The methods the constructors install are queries. *)
Lemma fromPool_methods_send_nothing pool conn :
  (forall user, sendsNothing (stakedBalance (fromPool w pool conn) user)) /\
  (forall user, sendsNothing (unstakedBalance (fromPool w pool conn) user)) /\
  (forall f user, earnedRewards (fromPool w pool conn) = Some f ->
                  sendsNothing (f user)) /\
  (forall g user passthrough,
     underlyingBalanceOf (fromPool w pool conn) = Some g ->
     sendsNothing (g user passthrough)).
Proof.
  assert (Hu : underlyingBalanceOf (fromPool w pool conn) =
               underlyingBalanceOf (RewardsPool_constructor w pool REWARDS_ABI conn)).
  { destruct (fromPool_cases w pool conn) as [-> | ->]; reflexivity. }
  repeat split.
  - intros user. destruct (fromPool_cases w pool conn) as [-> | ->];
      apply sendsNothing_call.
  - intros user. destruct (fromPool_cases w pool conn) as [-> | ->];
      apply sendsNothing_call.
  - intros f user.
    destruct (fromPool_cases w pool conn) as [-> | ->];
      cbn [earnedRewards AutoCompoundingRewardsPool HarvestRewardsPool
           setEarnedRewards];
      intros E; injection E as <-.
    + apply sendsNothing_ret.
    + apply sendsNothing_call.
  - intros g user passthrough. rewrite Hu.
    cbn [underlyingBalanceOf RewardsPool_constructor].
    destruct (Token.underlyingBalanceOf _); [| discriminate].
    intros E; injection E as <-.
    apply sendsNothing_bind; [apply sendsNothing_call |].
    intros balance. apply sendsNothing_call.
Qed.

(** X6: on a pool built by the factory, none of the read operations
    ([percentageOfTotal], [percentageOwnership], [usdValueOf], [summary])
    submits a transaction, whatever the world answers and whether the
    operation resolves or is rejected. *)
Theorem reads_submit_nothing pool conn (user : Address) (tokens : Z) :
  sendsNothing (percentageOfTotal w (fromPool w pool conn) tokens) /\
  sendsNothing (percentageOwnership w (fromPool w pool conn) user) /\
  sendsNothing (usdValueOf w (fromPool w pool conn) user) /\
  sendsNothing (summary w (fromPool w pool conn) user).
Proof.
  destruct (fromPool_methods_send_nothing pool conn) as (Hs & Hu & He & Hg).
  assert (Hown : sendsNothing (percentageOwnership w (fromPool w pool conn) user)).
  { unfold percentageOwnership.
    apply sendsNothing_bind; [apply sendsNothing_call |].
    intros b. apply percentageOfTotal_sendsNothing. }
  assert (Husd : sendsNothing (usdValueOf w (fromPool w pool conn) user)).
  { unfold usdValueOf.
    apply sendsNothing_bind; [apply sendsNothing_spawn, Hs |]. intros p1.
    apply sendsNothing_bind;
      [apply sendsNothing_invoke; intros g Eg; now apply He |]. intros p2.
    apply sendsNothing_bind; [apply sendsNothing_await |]. intros [s r].
    apply sendsNothing_bind; [apply sendsNothing_spawn, sendsNothing_call |].
    intros q1.
    apply sendsNothing_bind; [apply sendsNothing_spawn, sendsNothing_call |].
    intros q2.
    apply sendsNothing_bind; [apply sendsNothing_await |]. intros [sv rv].
    apply sendsNothing_ret. }
  repeat split; [apply percentageOfTotal_sendsNothing | exact Hown | exact Husd |].
  unfold summary.
  apply sendsNothing_bind; [apply sendsNothing_spawn, Hs |]. intros p1.
  apply sendsNothing_bind; [apply sendsNothing_spawn, Hu |]. intros p2.
  apply sendsNothing_bind;
    [apply sendsNothing_invoke; intros g Eg; now apply He |]. intros p3.
  apply sendsNothing_bind.
  { apply sendsNothing_spawn. unfold underlying.
    destruct (underlyingBalanceOf (fromPool w pool conn)) as [g |] eqn:Eg.
    - apply sendsNothing_bind; [now apply Hg |].
      intros v. apply sendsNothing_ret.
    - apply sendsNothing_ret. }
  intros p4.
  apply sendsNothing_bind; [apply sendsNothing_spawn, Hown |]. intros p5.
  apply sendsNothing_bind; [apply sendsNothing_spawn, Husd |]. intros p6.
  apply sendsNothing_bind; [apply sendsNothing_await |].
  intros (s & u & e & v & o & d). apply sendsNothing_ret.
Qed.

End ReadOnly.

(** ** The value in dollars *)

Section Valuation.

Variable w : World.

(** Unfolds [usdValueOf] down to the calls of its two stages. *)
Ltac run_usd :=
  unfold usdValueOf, invoke, bind, spawn, await, all2, ret, throw,
    Token_usdValueOf, call.

(** X7: once the staked balance and the earned rewards are read,
    [usdValueOf] issues both pricing queries, the staked asset's first, and
    resolves to the sum of the two prices; when a pricing query is rejected
    the call is rejected with that error (the staked asset's if both are),
    and no partial sum is returned. *)
Theorem usdValueOf_prices_both
  this (user : Address) (t t1 t2 : trace) f (staked rewards : Z) :
  stakedBalance this user t = (Ok staked, t1) ->
  earnedRewards this = Some f ->
  f user t1 = (Ok rewards, t2) ->
  usdValueOf w this user t =
    (match answer w (TokenUsdValueOf (lptoken this) staked),
           answer w (TokenUsdValueOf (reward this) rewards) with
     | Ok stakedValue, Ok rewardValue => Ok (stakedValue + rewardValue)
     | Err e, _ => Err e
     | Ok _, Err e => Err e
     end,
     t2 ++ [Read (TokenUsdValueOf (lptoken this) staked);
            Read (TokenUsdValueOf (reward this) rewards)]).
Proof.
  intros Hs Hf He. run_usd. rewrite Hs, Hf, He.
  rewrite app_two.
  destruct (answer w (TokenUsdValueOf (lptoken this) staked));
    destruct (answer w (TokenUsdValueOf (reward this) rewards)); reflexivity.
Qed.

(** X8: when the staked-balance read or the earned-rewards read is
    rejected, [usdValueOf] is rejected with that error (the staked
    balance's if both are) and the trace is the one the two reads left:
    no price is asked for. *)
Theorem usdValueOf_rejected_before_pricing
  this (user : Address) (t t1 t2 : trace) f r1 r2 (e : error) :
  stakedBalance this user t = (r1, t1) ->
  earnedRewards this = Some f ->
  f user t1 = (r2, t2) ->
  r1 = Err e \/ (exists staked, r1 = Ok staked) /\ r2 = Err e ->
  usdValueOf w this user t = (Err e, t2).
Proof.
  intros Hs Hf He Hr. run_usd. rewrite Hs, Hf, He.
  destruct Hr as [-> | [[staked ->] ->]]; reflexivity.
Qed.

(** X9: an instance built by the base constructor alone has no
    [earnedRewards]: [usdValueOf] and [summary] are rejected with a
    [TypeError] at the call of the missing method, after the reads that
    precede it in the array have been issued and before any other. *)
Theorem base_class_lacks_earnedRewards
  pool abi' conn (user : Address) (t : trace) :
  let this := RewardsPool_constructor w pool abi' conn in
  let missing := TypeError "this.earnedRewards is not a function" in
  usdValueOf w this user t =
    (Err missing, t ++ [Read (ContractBalanceOf (Descriptor.address pool) user)]) /\
  summary w this user t =
    (Err missing,
     t ++ [Read (ContractBalanceOf (Descriptor.address pool) user);
           Read (TokenBalanceOf (fromAsset w (Descriptor.asset pool) conn) user)]).
Proof.
  cbn zeta. split.
  - reflexivity.
  - unfold summary, invoke, bind, spawn, throw.
    cbn [stakedBalance unstakedBalance earnedRewards RewardsPool_constructor].
    unfold Contract_balanceOf, Token_balanceOf, call.
    now rewrite app_two.
Qed.

(** X10: on an auto-compounding pool [usdValueOf] never asks the contract
    for [earned]: after the staked balance it prices that balance and an
    amount of zero rewards, and nothing else is read. *)
Theorem usdValueOf_autocompounding
  pool conn (user : Address) (t : trace) (staked : Z) :
  Descriptor.type pool = Some "autocompounding"%string ->
  answer w (ContractBalanceOf (Descriptor.address pool) user) = Ok staked ->
  let lp := fromAsset w (Descriptor.asset pool) conn in
  let rw := fromAsset w (Descriptor.rewardAsset pool) conn in
  usdValueOf w (fromPool w pool conn) user t =
    (match answer w (TokenUsdValueOf lp staked),
           answer w (TokenUsdValueOf rw 0) with
     | Ok stakedValue, Ok rewardValue => Ok (stakedValue + rewardValue)
     | Err e, _ => Err e
     | Ok _, Err e => Err e
     end,
     t ++ [Read (ContractBalanceOf (Descriptor.address pool) user);
           Read (TokenUsdValueOf lp staked);
           Read (TokenUsdValueOf rw 0)]).
Proof.
  intros Htag Hs. cbn zeta.
  rewrite (fromPool_autocompounding w pool conn Htag).
  run_usd.
  cbn [stakedBalance earnedRewards lptoken reward AutoCompoundingRewardsPool
       setEarnedRewards RewardsPool_constructor].
  unfold Contract_balanceOf, call, ret. rewrite Hs.
  rewrite <- !app_assoc. cbn [app].
  destruct (answer w (TokenUsdValueOf
                        (fromAsset w (Descriptor.asset pool) conn) staked));
    destruct (answer w (TokenUsdValueOf
                          (fromAsset w (Descriptor.rewardAsset pool) conn) 0));
    reflexivity.
Qed.

End Valuation.

(** ** Percentages *)

Section Percentages.

Variable w : World.

Lemma length_append (s1 s2 : string) :
  String.length (s1 ++ s2)%string = (String.length s1 + String.length s2)%nat.
Proof. induction s1 as [| c s1 IH]; cbn; [reflexivity | now rewrite IH]. Qed.

Lemma length_slice0 (n : nat) (s : string) :
  (String.length (slice0 n s) <= n)%nat.
Proof.
  revert s. induction n as [| n IH]; intros [| c s]; cbn; try lia.
  specialize (IH s). lia.
Qed.

Ltac run_percentage :=
  unfold percentageOfTotal, totalSupply, Contract_totalSupply, call, bind,
    await, ret, Ethers.div.

(** X11: an amount equal to a total supply that is not zero is shown as
    ["100.0%"]. *)
Theorem percentageOfTotal_whole_supply this (a : Z) (t : trace) :
  a <> 0 ->
  answer w (ContractTotalSupply (address this)) = Ok a ->
  percentageOfTotal w this a t =
    (Ok "100.0%"%string, t ++ [Read (ContractTotalSupply (address this))]).
Proof.
  intros Ha Hz. run_percentage. rewrite Hz.
  destruct (Z.eqb_spec a 0); [contradiction |].
  rewrite (Z.mul_comm a WeiPerEther), (Z.quot_mul _ _ Ha).
  vm_compute formatUnits. reflexivity.
Qed.

(** X12: the ratio is truncated, not rounded: a positive amount below
    [10^-18] of the total supply is shown as ["0.0%"], which differs from
    the ["0%"] of an amount of zero. *)
Theorem percentageOfTotal_dust this (a total : Z) (t : trace) :
  0 < a ->
  a * 10 ^ 18 < total ->
  answer w (ContractTotalSupply (address this)) = Ok total ->
  percentageOfTotal w this a t =
    (Ok "0.0%"%string, t ++ [Read (ContractTotalSupply (address this))]).
Proof.
  intros Ha Hlt Hz. run_percentage. rewrite Hz.
  destruct (Z.eqb_spec a 0); [lia |].
  destruct (Z.eqb_spec total 0); [lia |].
  change WeiPerEther with (10 ^ 18).
  rewrite Z.quot_small by lia.
  vm_compute formatUnits. reflexivity.
Qed.

(** X13: whenever [percentageOfTotal] resolves, its string ends with the
    percent sign and has at most six characters. *)
Theorem percentageOfTotal_shape this (a : Z) (t : trace) (s : string) :
  fst (percentageOfTotal w this a t) = Ok s ->
  (String.length s <= 6)%nat /\ exists digits, s = (digits ++ "%")%string.
Proof.
  run_percentage.
  destruct (a =? 0).
  { cbn. intros E. injection E as <-. split; [cbn; lia | now exists "0"%string]. }
  destruct (answer w (ContractTotalSupply (address this))) as [total | e];
    [| discriminate].
  pose proof (length_slice0 5
                (formatUnits (Z.quot (a * WeiPerEther) total) 16)) as Hlen.
  destruct (total =? 0); cbv beta iota.
  - intros E. injection E as <-. split; [cbn; lia | now exists "0"%string].
  - remember (slice0 5 (formatUnits (Z.quot (a * WeiPerEther) total) 16))
      as digits eqn:Ed.
    unfold fst. intros E. injection E as <-. split.
    + rewrite length_append. change (String.length "%") with 1%nat. lia.
    + now exists digits.
Qed.

(** X14: [percentageOwnership] of an address that stakes nothing resolves
    to ["0%"] after the balance read alone, the total supply not being
    asked for; and when the balance read is rejected the call is rejected
    with the same error, again after that one read. *)
Theorem percentageOwnership_without_stake this (user : Address) (t : trace) :
  (answer w (ContractBalanceOf (address this) user) = Ok 0 ->
   percentageOwnership w this user t =
     (Ok "0%"%string, t ++ [Read (ContractBalanceOf (address this) user)])) /\
  (forall e,
     answer w (ContractBalanceOf (address this) user) = Err e ->
     percentageOwnership w this user t =
       (Err e, t ++ [Read (ContractBalanceOf (address this) user)])).
Proof.
  unfold percentageOwnership, balanceOf, Contract_balanceOf, call, bind.
  split; [intros H | intros e H]; rewrite H; reflexivity.
Qed.

End Percentages.

(** ** The summary *)

Section SummaryProperties.

Variable w : World.

(** X15: when [summary] resolves, every one of its six components has
    resolved, each started from the trace the one before it left, and the
    record holds their values next to the pool's address, the user, the
    pool's descriptor and the registry's activity flag for the pool's
    address. *)
Theorem summary_components this (user : Address) (t t' : trace) out :
  summary w this user t = (Ok out, t') ->
  Summary.address out = address this /\
  Summary.user out = user /\
  Summary.pool out = _pool this /\
  Summary.isActive out = isAddressActive w (address this) /\
  exists f v t1 t2 t3 t4 t5,
    stakedBalance this user t = (Ok (Summary.stakedBalance out), t1) /\
    unstakedBalance this user t1 = (Ok (Summary.unstakedBalance out), t2) /\
    earnedRewards this = Some f /\
    f user t2 = (Ok (Summary.earnedRewards out), t3) /\
    underlying this user t3 = (Ok v, t4) /\
    Summary.underlyingBalanceOf out = Some v /\
    percentageOwnership w this user t4
      = (Ok (Summary.percentageOwnership out), t5) /\
    usdValueOf w this user t5 = (Ok (Summary.usdValueOf out), t').
Proof.
  unfold summary, invoke, spawn, await, all2, ret, throw.
  unfold bind at 1 2 3 4 5 6 7.
  destruct (stakedBalance this user t) as [r1 t1] eqn:E1.
  destruct (unstakedBalance this user t1) as [r2 t2] eqn:E2.
  destruct (earnedRewards this) as [f |]; [| discriminate].
  destruct (f user t2) as [r3 t3] eqn:E3.
  destruct (underlying this user t3) as [r4 t4] eqn:E4.
  destruct (percentageOwnership w this user t4) as [r5 t5] eqn:E5.
  destruct (usdValueOf w this user t5) as [r6 t6] eqn:E6.
  destruct r1, r2, r3, r4 as [v |], r5, r6; try discriminate.
  assert (Hv : truthy v = true).
  { unfold underlying, bind, ret in E4.
    destruct (underlyingBalanceOf this) as [g |].
    - destruct (g user Undefined t3) as [[n |] t0]; [| discriminate].
      injection E4 as <- _. reflexivity.
    - injection E4 as <- _. reflexivity. }
  rewrite Hv. intros H. injection H as <- <-.
  repeat split. exists f, v, t1, t2, t3, t4, t5.
  repeat split; assumption.
Qed.

End SummaryProperties.

(** ** What approve-and-stake submits and returns *)

Section StakingOutcomes.

Variable w : World.

Ltac run_stake :=
  unfold approveAndStake, bind, spawn, await, awaitOptional, all2, ret, throw,
    Token_allowances, Token_balanceOf, Token_approve, stake, Contract_stake,
    call, send, bind, await, ret;
  cbn [isSigner negb fst snd].

(** X16: whatever its arguments and whatever the world answers,
    [approveAndStake] submits nothing, or the stake alone, or one approval
    followed by the stake.  It submits only for a signer, after both reads
    have been answered; the stake is on the pool's own contract, for the
    defaulted amount, which does not exceed the wallet balance read; and
    the approval names the pool as spender, for that amount or for
    [MaxUint256]. *)
Theorem approveAndStake_transactions this amnt approveForever t :
  exists txs,
    transactions (snd (approveAndStake w this amnt approveForever t))
      = transactions t ++ txs /\
    (txs = [] \/
     exists me inner allowance balance,
       provider this = Signer me inner /\
       answer w (TokenAllowances (lptoken this) me (address this)) = Ok allowance /\
       answer w (TokenBalanceOf (lptoken this) me) = Ok balance /\
       defaultAmount amnt balance <= balance /\
       let amount := defaultAmount amnt balance in
       (txs = [ContractStake (address this) amount] \/
        txs = [TokenApprove (lptoken this) (address this) amount;
               ContractStake (address this) amount] \/
        txs = [TokenApprove (lptoken this) (address this) MaxUint256;
               ContractStake (address this) amount])).
Proof.
  destruct (provider this) as [| network | me inner] eqn:Hme;
    [exists []; split; [| now left];
     run_stake; rewrite Hme; cbn; now rewrite app_nil_r .. |].
  destruct (answer w (TokenAllowances (lptoken this) me (address this)))
    as [allowance | e] eqn:Hall;
    [destruct (answer w (TokenBalanceOf (lptoken this) me))
       as [balance | e] eqn:Hbal;
     [destruct (balance <? defaultAmount amnt balance) eqn:Hcheck |] |].
  - exists []. split; [| now left].
    run_stake; rewrite Hme; run_stake; rewrite Hall, Hbal, Hcheck.
    cbn [snd]. rewrite !transactions_app. cbn. now rewrite !app_nil_r.
  - rewrite (approveAndStake_trace w _ _ _ _ _ _ _ _ Hme Hall Hbal Hcheck).
    rewrite !transactions_app. cbn [firstReads transactions app].
    eexists. split; [reflexivity |]. right.
    exists me, inner, allowance, balance.
    repeat split; try assumption; [now apply Z.ltb_ge |].
    cbn zeta.
    destruct (approveForever || (allowance <? balance));
      [destruct approveForever |]; cbn; auto.
  - exists []. split; [| now left].
    run_stake; rewrite Hme; run_stake; rewrite Hall, Hbal.
    cbn [snd]. rewrite !transactions_app. cbn. now rewrite !app_nil_r.
  - exists []. split; [| now left].
    run_stake; rewrite Hme; run_stake; rewrite Hall.
    destruct (answer w (TokenBalanceOf (lptoken this) me));
      cbn [snd]; rewrite !transactions_app; cbn; now rewrite !app_nil_r.
Qed.

(** X17: past the signer check and the balance check, with both reads
    answered, the call resolves to the receipt of the stake, never to the
    approval's; it is rejected with the approval's error when an approval
    was submitted and is rejected, and with the stake's error when only
    the stake is. *)
Theorem approveAndStake_outcome
  this me inner amnt approveForever allowance balance t :
  provider this = Signer me inner ->
  answer w (TokenAllowances (lptoken this) me (address this)) = Ok allowance ->
  answer w (TokenBalanceOf (lptoken this) me) = Ok balance ->
  defaultAmount amnt balance <= balance ->
  let amount := defaultAmount amnt balance in
  let staked :=
    match settle w (ContractStake (address this) amount) with
    | Ok receipt => Ok (Some receipt)
    | Err e => Err e
    end in
  fst (approveAndStake w this amnt approveForever t) =
    if approveForever || (allowance <? balance) then
      match settle w (TokenApprove (lptoken this) (address this)
                        (if approveForever then MaxUint256 else amount)) with
      | Ok _ => staked
      | Err e => Err e
      end
    else staked.
Proof.
  intros Hme Hall Hbal Hle. cbn zeta.
  assert (Hcheck : (balance <? defaultAmount amnt balance) = false)
    by now apply Z.ltb_ge.
  run_stake; rewrite Hme; run_stake; rewrite Hall, Hbal, Hcheck.
  destruct (approveForever || (allowance <? balance)); run_stake.
  - destruct (settle w (TokenApprove _ _ _));
      [destruct (settle w (ContractStake _ _)) |]; reflexivity.
  - destruct (settle w (ContractStake _ _)); reflexivity.
Qed.

(** X18: the stake is submitted before the approval is awaited: when the
    approval is rejected the call is rejected with its error, and the
    stake transaction has been submitted all the same. *)
Theorem approveAndStake_stakes_despite_rejected_approval
  this me inner amnt approveForever allowance balance t (e : error) :
  provider this = Signer me inner ->
  answer w (TokenAllowances (lptoken this) me (address this)) = Ok allowance ->
  answer w (TokenBalanceOf (lptoken this) me) = Ok balance ->
  defaultAmount amnt balance <= balance ->
  approveForever = true \/ allowance < balance ->
  settle w (TokenApprove (lptoken this) (address this)
              (if approveForever then MaxUint256
               else defaultAmount amnt balance)) = Err e ->
  approveAndStake w this amnt approveForever t =
    (Err e,
     t ++ firstReads this me ++
       [Send (TokenApprove (lptoken this) (address this)
                (if approveForever then MaxUint256
                 else defaultAmount amnt balance));
        Send (ContractStake (address this) (defaultAmount amnt balance))]).
Proof.
  intros Hme Hall Hbal Hle Hc Hrej.
  assert (Hcheck : (balance <? defaultAmount amnt balance) = false)
    by now apply Z.ltb_ge.
  assert (Hb : approveForever || (allowance <? balance) = true).
  { destruct Hc as [-> | Hc]; [reflexivity |].
    apply orb_true_iff. right. now apply Z.ltb_lt. }
  run_stake; rewrite Hme; run_stake; rewrite Hall, Hbal, Hcheck, Hb.
  run_stake. rewrite Hrej. unfold firstReads.
  rewrite <- !app_assoc. reflexivity.
Qed.

(** X19: when a signer's allowance read or wallet-balance read is
    rejected, the call is rejected with the error of a rejected read once
    both reads have been issued, and nothing is submitted. *)
Theorem approveAndStake_rejected_read this me inner amnt approveForever t :
  provider this = Signer me inner ->
  (exists e,
     answer w (TokenAllowances (lptoken this) me (address this)) = Err e) \/
  (exists e, answer w (TokenBalanceOf (lptoken this) me) = Err e) ->
  snd (approveAndStake w this amnt approveForever t) = t ++ firstReads this me /\
  exists e,
    fst (approveAndStake w this amnt approveForever t) = Err e /\
    (answer w (TokenAllowances (lptoken this) me (address this)) = Err e \/
     answer w (TokenBalanceOf (lptoken this) me) = Err e).
Proof.
  intros Hme Hrej. unfold firstReads.
  run_stake; rewrite Hme; run_stake.
  destruct (answer w (TokenAllowances (lptoken this) me (address this)))
    as [allowance | ea];
    destruct (answer w (TokenBalanceOf (lptoken this) me)) as [balance | eb];
    cbn [fst snd]; rewrite app_two.
  - destruct Hrej as [[e He] | [e He]]; discriminate.
  - split; [reflexivity |]. exists eb. split; [reflexivity | now right].
  - split; [reflexivity |]. exists ea. split; [reflexivity | now left].
  - split; [reflexivity |]. exists ea. split; [reflexivity | now left].
Qed.

(** X21: the connection the flow tests is the contract's [provider]
    property, not the constructor's argument: on a pool the factory builds
    from [null], from a provider, or from a signer whose own provider is
    not a signer, [approveAndStake] is rejected with [No signer] before any
    read or transaction. *)
Theorem approveAndStake_on_plain_connection
  pool conn amnt approveForever (t : trace) :
  conn = Null \/
  (exists network, conn = Provider network) \/
  (exists account inner, conn = Signer account inner /\ isSigner inner = false) ->
  approveAndStake w (fromPool w pool conn) amnt approveForever t =
    (Err (Error "No signer"), t).
Proof.
  intros Hconn.
  assert (Hp : isSigner (provider (fromPool w pool conn)) = false).
  { destruct (fromPool_fields w pool conn) as (_ & -> & _).
    destruct Hconn as [-> | [[network ->] | (account & inner & -> & Hin)]];
      [reflexivity | reflexivity | exact Hin]. }
  unfold approveAndStake. rewrite Hp. reflexivity.
Qed.

End StakingOutcomes.

(** ** The further properties on concrete worlds *)

Lemma fromPool_name_witness :
  Descriptor.name (descriptor None) = None /\
  name (fromPool (Fixture.world false 100 0) (descriptor None) signer)
    = "fUNI-V2"%string.
Proof.
  split; [reflexivity |].
  destruct (fromPool_name (Fixture.world false 100 0) (descriptor None) signer)
    as [_ H].
  apply H. left. reflexivity.
Defined.

(** 25 staked shares are worth 75 of the underlying. *)
Lemma fromPool_underlyingBalanceOf_witness :
  let world := Fixture.world true 100 0 in
  Token.underlyingBalanceOf (fromAsset world lpAsset signer) = true /\
  exists f,
    underlyingBalanceOf (fromPool world (descriptor None) signer) = Some f /\
    f alice Undefined [] =
      (Ok 75,
       [Read (ContractBalanceOf "0xP001" alice);
        Read (TokenCalcShare (Fixture.lp true signer) 25 Undefined)]).
Proof.
  cbn zeta. split; [reflexivity |].
  destruct (fromPool_underlyingBalanceOf (Fixture.world true 100 0)
              (descriptor None) signer) as [_ H].
  destruct (H eq_refl) as (f & Hf & Hcalls).
  exists f. split; [exact Hf |].
  apply (proj1 (Hcalls alice Undefined []) 25). reflexivity.
Defined.

(** 25 staked at 2 dollars and 7 earned at 2 dollars. *)
Lemma usdValueOf_prices_both_witness :
  let world := Fixture.world false 100 0 in
  let this := fromPool world (descriptor None) signer in
  earnedRewards this = Some (earned world this) /\
  fst (usdValueOf world this alice []) = Ok 64.
Proof.
  cbn zeta. split; [reflexivity |].
  rewrite (usdValueOf_prices_both (Fixture.world false 100 0)
             (fromPool (Fixture.world false 100 0) (descriptor None) signer)
             alice []
             [Read (ContractBalanceOf "0xP001" alice)]
             [Read (ContractBalanceOf "0xP001" alice);
              Read (ContractEarned "0xP001" alice)]
             (earned (Fixture.world false 100 0)
                (fromPool (Fixture.world false 100 0) (descriptor None) signer))
             25 7);
    reflexivity.
Defined.

Lemma usdValueOf_rejected_before_pricing_witness :
  let world := Outage.world Outage.stakedBalanceDown Outage.nothingFails in
  let this := fromPool world (descriptor None) signer in
  answer world (ContractBalanceOf "0xP001" alice) = Err Outage.timeout /\
  usdValueOf world this alice [] =
    (Err Outage.timeout,
     [Read (ContractBalanceOf "0xP001" alice);
      Read (ContractEarned "0xP001" alice)]).
Proof.
  cbn zeta. split; [reflexivity |].
  apply (usdValueOf_rejected_before_pricing
           (Outage.world Outage.stakedBalanceDown Outage.nothingFails)
           (fromPool (Outage.world Outage.stakedBalanceDown Outage.nothingFails)
              (descriptor None) signer)
           alice []
           [Read (ContractBalanceOf "0xP001" alice)]
           [Read (ContractBalanceOf "0xP001" alice);
            Read (ContractEarned "0xP001" alice)]
           (earned (Outage.world Outage.stakedBalanceDown Outage.nothingFails)
              (fromPool (Outage.world Outage.stakedBalanceDown Outage.nothingFails)
                 (descriptor None) signer))
           (Err Outage.timeout) (Ok 7) Outage.timeout);
    [reflexivity | reflexivity | reflexivity | left; reflexivity].
Defined.

Lemma usdValueOf_autocompounding_witness :
  let world := Fixture.world false 100 0 in
  let pool := descriptor (Some "autocompounding"%string) in
  Descriptor.type pool = Some "autocompounding"%string /\
  usdValueOf world (fromPool world pool signer) alice [] =
    (Ok 50,
     [Read (ContractBalanceOf "0xP001" alice);
      Read (TokenUsdValueOf (Fixture.lp false signer) 25);
      Read (TokenUsdValueOf (fromAsset world farm signer) 0)]).
Proof.
  cbn zeta. split; [reflexivity |].
  apply (usdValueOf_autocompounding (Fixture.world false 100 0)
           (descriptor (Some "autocompounding"%string)) signer alice [] 25);
    reflexivity.
Defined.

Lemma percentageOfTotal_whole_supply_witness :
  let world := Fixture.world false 100 0 in
  let this := fromPool world (descriptor None) signer in
  100 <> 0 /\
  percentageOfTotal world this 100 [] =
    (Ok "100.0%"%string, [Read (ContractTotalSupply "0xP001")]).
Proof.
  cbn zeta. split; [lia |].
  apply (percentageOfTotal_whole_supply (Fixture.world false 100 0)
           (fromPool (Fixture.world false 100 0) (descriptor None) signer)
           100 []);
    [lia | reflexivity].
Defined.

(** 99 base units of a supply of [10^20]. *)
Lemma percentageOfTotal_dust_witness :
  let this := fromPool Outage.dilutedWorld (descriptor None) signer in
  99 * 10 ^ 18 < 10 ^ 20 /\
  percentageOfTotal Outage.dilutedWorld this 99 [] =
    (Ok "0.0%"%string, [Read (ContractTotalSupply "0xP001")]).
Proof.
  cbn zeta. split; [lia |].
  apply (percentageOfTotal_dust Outage.dilutedWorld
           (fromPool Outage.dilutedWorld (descriptor None) signer)
           99 (10 ^ 20) []);
    [lia | lia | reflexivity].
Defined.

Lemma percentageOfTotal_shape_witness :
  let world := Fixture.world false 100 0 in
  let this := fromPool world (descriptor None) signer in
  fst (percentageOfTotal world this 1 []) = Ok "1.0%"%string /\
  (String.length "1.0%" <= 6)%nat.
Proof.
  cbn zeta. split; [vm_compute; reflexivity |].
  apply (percentageOfTotal_shape (Fixture.world false 100 0)
           (fromPool (Fixture.world false 100 0) (descriptor None) signer)
           1 [] "1.0%"%string).
  vm_compute. reflexivity.
Defined.

Lemma percentageOwnership_without_stake_witness :
  let world := Outage.world Outage.stakedBalanceDown Outage.nothingFails in
  let this := fromPool world (descriptor None) signer in
  answer world (ContractBalanceOf (address this) alice) = Err Outage.timeout /\
  percentageOwnership world this alice [] =
    (Err Outage.timeout, [Read (ContractBalanceOf "0xP001" alice)]).
Proof.
  cbn zeta. split; [reflexivity |].
  apply (proj2 (percentageOwnership_without_stake
                  (Outage.world Outage.stakedBalanceDown Outage.nothingFails)
                  (fromPool
                     (Outage.world Outage.stakedBalanceDown Outage.nothingFails)
                     (descriptor None) signer)
                  alice [])).
  reflexivity.
Defined.

Lemma summary_components_witness :
  let world := Fixture.world true 100 0 in
  let this := fromPool world (descriptor (Some "autocompounding"%string)) signer in
  exists out t',
    summary world this alice [] = (Ok out, t') /\
    Summary.address out = "0xP001"%string /\
    Summary.user out = alice /\
    Summary.pool out = descriptor (Some "autocompounding"%string) /\
    Summary.isActive out = true.
Proof.
  cbn zeta. eexists. eexists.
  split; [vm_compute; reflexivity |].
  destruct (summary_components (Fixture.world true 100 0)
              (fromPool (Fixture.world true 100 0)
                 (descriptor (Some "autocompounding"%string)) signer)
              alice [] _ _ eq_refl) as (Ha & Hu & Hp & Hact & _).
  repeat split; assumption.
Defined.

(** 40 staked from a wallet of 100 with no allowance. *)
Lemma approveAndStake_outcome_witness :
  let world := Fixture.world false 100 0 in
  let this := fromPool world (descriptor None) nested in
  provider this = signer /\
  defaultAmount (Some 40) 100 <= 100 /\
  fst (approveAndStake world this (Some 40) false [])
    = Ok (Some "0xstaked"%string).
Proof.
  cbn zeta. split; [reflexivity |]. split; [cbn; lia |].
  rewrite (approveAndStake_outcome (Fixture.world false 100 0)
             (fromPool (Fixture.world false 100 0) (descriptor None) nested)
             alice (Provider "mainnet") (Some 40) false 0 100 []);
    [reflexivity | reflexivity | reflexivity | reflexivity | cbn; lia].
Defined.

Lemma approveAndStake_stakes_despite_rejected_approval_witness :
  let world := Outage.world Outage.nothingDown Outage.approvalFails in
  let this := fromPool world (descriptor None) nested in
  provider this = signer /\
  settle world (TokenApprove (lptoken this) (address this) 40)
    = Err Outage.reverted /\
  approveAndStake world this (Some 40) false [] =
    (Err Outage.reverted,
     [Read (TokenAllowances (Outage.lp nested) alice "0xP001");
      Read (TokenBalanceOf (Outage.lp nested) alice);
      Send (TokenApprove (Outage.lp nested) "0xP001" 40);
      Send (ContractStake "0xP001" 40)]).
Proof.
  cbn zeta. split; [reflexivity |]. split; [reflexivity |].
  apply (approveAndStake_stakes_despite_rejected_approval
           (Outage.world Outage.nothingDown Outage.approvalFails)
           (fromPool (Outage.world Outage.nothingDown Outage.approvalFails)
              (descriptor None) nested)
           alice (Provider "mainnet") (Some 40) false 0 100 [] Outage.reverted);
    [reflexivity | reflexivity | reflexivity | cbn; lia | right; lia
    | reflexivity].
Defined.

Lemma approveAndStake_rejected_read_witness :
  let world := Outage.world Outage.walletDown Outage.nothingFails in
  let this := fromPool world (descriptor None) nested in
  provider this = signer /\
  answer world (TokenBalanceOf (lptoken this) alice) = Err Outage.timeout /\
  snd (approveAndStake world this (Some 40) true []) =
    [Read (TokenAllowances (Outage.lp nested) alice "0xP001");
     Read (TokenBalanceOf (Outage.lp nested) alice)] /\
  exists e, fst (approveAndStake world this (Some 40) true []) = Err e.
Proof.
  cbn zeta. split; [reflexivity |]. split; [reflexivity |].
  destruct (approveAndStake_rejected_read
              (Outage.world Outage.walletDown Outage.nothingFails)
              (fromPool (Outage.world Outage.walletDown Outage.nothingFails)
                 (descriptor None) nested)
              alice (Provider "mainnet") (Some 40) true [])
    as (Htrace & e & He & _);
    [reflexivity | right; exists Outage.timeout; reflexivity |].
  split; [exact Htrace | exists e; exact He].
Defined.

(** A pool built from a signer that is connected to a provider. *)
Lemma approveAndStake_on_plain_connection_witness :
  let world := Fixture.world false 100 0 in
  isSigner (Provider "mainnet") = false /\
  approveAndStake world (fromPool world (descriptor None) signer) (Some 40) false []
    = (Err (Error "No signer"), []).
Proof.
  cbn zeta. split; [reflexivity |].
  apply (approveAndStake_on_plain_connection (Fixture.world false 100 0)
           (descriptor None) signer (Some 40) false []).
  right. right. exists alice, (Provider "mainnet"). split; reflexivity.
Defined.

(** The cohorts of the sample registry. *)
Example knownPools_sample :
  map hasEarnedRewards
    (knownPools (Fixture.world false 100 0) Outage.registry signer)
    = [true; true] /\
  map abi (knownPools (Fixture.world false 100 0) Outage.registry signer)
    = [AUTO_REWARDS_ABI; REWARDS_ABI] /\
  weekTwo (Fixture.world false 100 0) Outage.registry signer = [].
Proof. repeat split. Qed.

(** ** The summary of a factory-built pool *)

Section FactorySummary.

Variable w : World.

Lemma summary_first_components this (user : Address) (t t' : trace) out :
  summary w this user t = (Ok out, t') ->
  exists f t1 t2 t3,
    stakedBalance this user t = (Ok (Summary.stakedBalance out), t1) /\
    unstakedBalance this user t1 = (Ok (Summary.unstakedBalance out), t2) /\
    earnedRewards this = Some f /\
    f user t2 = (Ok (Summary.earnedRewards out), t3).
Proof.
  unfold summary, invoke, spawn, await, all2, ret, throw.
  unfold bind at 1 2 3 4 5 6 7.
  destruct (stakedBalance this user t) as [r1 t1] eqn:E1.
  destruct (unstakedBalance this user t1) as [r2 t2] eqn:E2.
  destruct (earnedRewards this) as [f |]; [| discriminate].
  destruct (f user t2) as [r3 t3] eqn:E3.
  destruct (underlying this user t3) as [r4 t4].
  destruct (percentageOwnership w this user t4) as [r5 t5].
  destruct (usdValueOf w this user t5) as [r6 t6].
  destruct r1, r2, r3, r4 as [v |], r5, r6; try discriminate.
  intros H. injection H as <- <-.
  exists f, t1, t2, t3.
  destruct (truthy v); repeat split; assumption.
Qed.

(** X20: when the summary of a factory-built pool resolves, its staked
    balance is the contract's answer for the user, its unstaked balance is
    the lp-token adapter's answer, and its earned rewards are zero for the
    tag ["autocompounding"] and the contract's [earned] answer for every
    other descriptor. *)
Theorem summary_of_factory_pool pool conn (user : Address) (t t' : trace) out :
  summary w (fromPool w pool conn) user t = (Ok out, t') ->
  answer w (ContractBalanceOf (Descriptor.address pool) user)
    = Ok (Summary.stakedBalance out) /\
  answer w (TokenBalanceOf (fromAsset w (Descriptor.asset pool) conn) user)
    = Ok (Summary.unstakedBalance out) /\
  (Descriptor.type pool = Some "autocompounding"%string ->
   Summary.earnedRewards out = 0) /\
  (Descriptor.type pool <> Some "autocompounding"%string ->
   answer w (ContractEarned (Descriptor.address pool) user)
     = Ok (Summary.earnedRewards out)).
Proof.
  intros H.
  destruct (summary_first_components _ _ _ _ _ H)
    as (f & t1 & t2 & t3 & Hs & Hu & Hf & He).
  assert (Hstaked : stakedBalance (fromPool w pool conn) =
                    Contract_balanceOf w (Descriptor.address pool)).
  { destruct (fromPool_cases w pool conn) as [-> | ->]; reflexivity. }
  assert (Hunstaked : unstakedBalance (fromPool w pool conn) =
                      Token_balanceOf w (fromAsset w (Descriptor.asset pool) conn)).
  { destruct (fromPool_cases w pool conn) as [-> | ->]; reflexivity. }
  rewrite Hstaked in Hs. rewrite Hunstaked in Hu.
  unfold Contract_balanceOf, Token_balanceOf, call in Hs, Hu.
  injection Hs as Hs _. injection Hu as Hu _.
  repeat split; try assumption.
  - intros Htag. rewrite (fromPool_autocompounding w pool conn Htag) in Hf.
    cbn in Hf. injection Hf as <-. unfold ret in He. now injection He as <-.
  - intros Htag. rewrite (fromPool_default w pool conn Htag) in Hf.
    cbn in Hf. injection Hf as <-.
    unfold earned, Contract_earned, call in He. cbn in He.
    now injection He as He _.
Qed.

End FactorySummary.

Lemma summary_of_factory_pool_witness :
  let world := Fixture.world false 100 0 in
  exists out t',
    summary world (fromPool world (descriptor None) signer) alice []
      = (Ok out, t') /\
    answer world (ContractEarned "0xP001" alice)
      = Ok (Summary.earnedRewards out).
Proof.
  cbn zeta. eexists. eexists.
  split; [vm_compute; reflexivity |].
  destruct (summary_of_factory_pool (Fixture.world false 100 0)
              (descriptor None) signer alice [] _ _ eq_refl)
    as (_ & _ & _ & H).
  apply H. discriminate.
Defined.
